(** * Place-name resolution of src/App.jsx, embedded in Rocq

    The development follows the code of [App.jsx]: the string methods the
    resolvers call ([toLowerCase], [replace] with a regular expression,
    [trim], [includes]), the array methods ([find], [filter(Boolean)]), the
    two resolvers [findMatchingProvince] and [findMatchingCity], the address
    field selection of [reverseGeocode] and the state updates of
    [setLocation].

    Strings are sequences of UTF-16 code units.  The model covers the code
    units 0..255 (one [ascii] each, read as Latin-1); every name of the
    schedule API's vocabulary lies in that range.  [console.log] calls are
    a diagnostic side channel and are left out. *)

From Stdlib Require Import Bool List Arith Lia NArith Ascii String.
Import ListNotations.
Open Scope string_scope.
Open Scope bool_scope.

(** ** Code units *)

Definition code (c : ascii) : N := N_of_ascii c.

Definition between (lo hi n : N) : bool := ((lo <=? n) && (n <=? hi))%N.

(** [String.prototype.toLowerCase] on one code unit below 256: A-Z and
    the Latin-1 capitals U+00C0..U+00DE (without the sign U+00D7) move up
    by 32, everything else is kept. *)
Definition lower_char (c : ascii) : ascii :=
  let n := code c in
  if between 65 90 n || (between 192 222 n && negb (n =? 215)%N)
  then ascii_of_N (n + 32) else c.

(** Canonicalize of a regular expression with the [i] flag and without
    the [u] flag: the code unit of the upper-case form when that is one
    code unit.  Below 256 that moves a-z and U+00E0..U+00FE (without
    U+00F7) down by 32; U+00B5 and U+00FF have upper-case forms above 255
    that no other code unit below 256 shares, so they are kept. *)
Definition canonicalize (c : ascii) : ascii :=
  let n := code c in
  if between 97 122 n || (between 224 254 n && negb (n =? 247)%N)
  then ascii_of_N (n - 32) else c.

(** White space and line terminators below 256: TAB, LF, VT, FF, CR,
    SPACE and NBSP.  This is the class [\s] and what [trim] removes. *)
Definition is_space (c : ascii) : bool :=
  let n := code c in
  between 9 13 n || (n =? 32)%N || (n =? 160)%N.

(** ** String methods *)

Fixpoint toLowerCase (s : string) : string :=
  match s with
  | EmptyString => EmptyString
  | String c r => String (lower_char c) (toLowerCase r)
  end.

Fixpoint trimStart (s : string) : string :=
  match s with
  | EmptyString => EmptyString
  | String c r => if is_space c then trimStart r else s
  end.

Fixpoint trimEnd (s : string) : string :=
  match s with
  | EmptyString => EmptyString
  | String c r =>
      match trimEnd r with
      | EmptyString => if is_space c then EmptyString else String c EmptyString
      | r' => String c r'
      end
  end.

Definition trim (s : string) : string := trimEnd (trimStart s).

(** [s.includes(t)]: [t] occurs in [s] at some index. *)
Fixpoint includes (s t : string) : bool :=
  prefix t s ||
  match s with
  | EmptyString => false
  | String _ r => includes r t
  end.

(** ** Regular expressions

    The fragment the source uses: the assertion [^], one literal code
    unit, the class [\s], sequence, ordered alternation, the greedy
    quantifiers [*] and [+] on one code unit or class, and the greedy [?].
    Matching is backtracking: [rmatch] lists, in the order the ECMAScript
    matcher tries them, every state a match of the pattern can end in;
    the matcher takes the first. *)

Inductive cset : Type :=
| CChar (c : ascii)
| CSpace.

Inductive regex : Type :=
| Eps
| Bol
| One (a : cset)
| Seq (r1 r2 : regex)
| Alt (r1 r2 : regex)
| Star (a : cset)
| Plus (a : cset)
| Opt (r : regex).

Record regexp : Type := RegExp { pattern : regex; ignoreCase : bool }.

Definition cset_match (i : bool) (a : cset) (c : ascii) : bool :=
  match a with
  | CChar x => if i then Ascii.eqb (canonicalize x) (canonicalize c)
               else Ascii.eqb x c
  | CSpace => is_space c
  end.

(** A matcher state: the index reached in the input and the rest of the
    input from there. *)
Definition mstate : Type := nat * string.

Fixpoint star (p : ascii -> bool) (e : nat) (s : string) : list mstate :=
  match s with
  | EmptyString => [(e, s)]
  | String c r => if p c then star p (S e) r ++ [(e, s)] else [(e, s)]
  end.

Fixpoint rmatch (i : bool) (r : regex) (x : mstate) : list mstate :=
  match r with
  | Eps => [x]
  | Bol => if Nat.eqb (fst x) 0 then [x] else []
  | One a =>
      match snd x with
      | String c s => if cset_match i a c then [(S (fst x), s)] else []
      | EmptyString => []
      end
  | Seq r1 r2 => flat_map (rmatch i r2) (rmatch i r1 x)
  | Alt r1 r2 => rmatch i r1 x ++ rmatch i r2 x
  | Star a => star (cset_match i a) (fst x) (snd x)
  | Plus a =>
      match snd x with
      | String c s => if cset_match i a c
                      then star (cset_match i a) (S (fst x)) s else []
      | EmptyString => []
      end
  | Opt r1 => rmatch i r1 x ++ [x]
  end.

(** The leftmost match from index [e] on: the text before it and the
    text after it. *)
Fixpoint search (re : regexp) (e : nat) (s : string) : option (string * string) :=
  match rmatch (ignoreCase re) (pattern re) (e, s) with
  | (_, rest) :: _ => Some (EmptyString, rest)
  | [] =>
      match s with
      | EmptyString => None
      | String c r =>
          match search re (S e) r with
          | Some (pre, rest) => Some (String c pre, rest)
          | None => None
          end
      end
  end.

(** [s.replace(re, rep)] for a pattern without the [g] flag and a
    replacement text without [$]: the first match is replaced. *)
Definition replace (re : regexp) (rep : string) (s : string) : string :=
  match search re 0 s with
  | Some (pre, rest) => pre ++ rep ++ rest
  | None => s
  end.

(** Pattern builders: a literal word and an alternation [(w|w1|...)]. *)
Fixpoint lit (w : string) : regex :=
  match w with
  | EmptyString => Eps
  | String c r => Seq (One (CChar c)) (lit r)
  end.

Fixpoint alts (w : string) (ws : list string) : regex :=
  match ws with
  | [] => lit w
  | w' :: ws' => Alt (lit w) (alts w' ws')
  end.

(** ** The patterns of the source *)

(** [/^(provinsi|prov|daerah|istimewa|khusus)\s*/i] *)
Definition provinceLeadingTokens : list string :=
  ["provinsi"; "prov"; "daerah"; "istimewa"; "khusus"].
Definition provinceLeadingRe : regexp :=
  RegExp (Seq Bol (Seq (alts "provinsi" ["prov"; "daerah"; "istimewa"; "khusus"])
                       (Star CSpace))) true.

(** [/\s+(daerah|istimewa|khusus)\s*/i] *)
Definition provinceInnerRe : regexp :=
  RegExp (Seq (Plus CSpace) (Seq (alts "daerah" ["istimewa"; "khusus"])
                                 (Star CSpace))) true.

(** [/^(provinsi|prov|d\.i\.|d\.i\.|daerah|istimewa)\s*/i], the entry
    strip of the exact step. *)
Definition provinceEntryExactRe : regexp :=
  RegExp (Seq Bol (Seq (alts "provinsi" ["prov"; "d.i."; "d.i."; "daerah"; "istimewa"])
                       (Star CSpace))) true.

(** [/^(provinsi|prov|d\.i\.|daerah|istimewa)\s*/i], the entry strip of
    the partial step. *)
Definition provinceEntryPartialRe : regexp :=
  RegExp (Seq Bol (Seq (alts "provinsi" ["prov"; "d.i."; "daerah"; "istimewa"])
                       (Star CSpace))) true.

(** [/^(kabupaten|kabupaten|kab|kota|city|daerah|khusus|district|regency|municipality)\s*/i] *)
Definition cityLeadingTokens : list string :=
  ["kabupaten"; "kabupaten"; "kab"; "kota"; "city"; "daerah"; "khusus";
   "district"; "regency"; "municipality"].
Definition cityLeadingRe : regexp :=
  RegExp (Seq Bol (Seq (alts "kabupaten"
                          ["kabupaten"; "kab"; "kota"; "city"; "daerah"; "khusus";
                           "district"; "regency"; "municipality"])
                       (Star CSpace))) true.

(** [/\s+(kabupaten|kab|kota|city|daerah|khusus)\s*/i] *)
Definition cityInnerRe : regexp :=
  RegExp (Seq (Plus CSpace)
              (Seq (alts "kabupaten" ["kab"; "kota"; "city"; "daerah"; "khusus"])
                   (Star CSpace))) true.

(** [/^kab\.?\s*/i] *)
Definition kabRe : regexp :=
  RegExp (Seq Bol (Seq (lit "kab") (Seq (Opt (One (CChar "."))) (Star CSpace)))) true.

(** [/^kota\s*/i] *)
Definition kotaRe : regexp :=
  RegExp (Seq Bol (Seq (lit "kota") (Star CSpace))) true.

(** ** Normalisation chains of the resolvers *)

(** [name.toLowerCase().replace(/^(provinsi|...)\s*/i, '')
        .replace(/\s+(daerah|istimewa|khusus)\s*/i, ' ').trim()] *)
Definition normalizeProvince (name : string) : string :=
  trim (replace provinceInnerRe " " (replace provinceLeadingRe "" (toLowerCase name))).

(** The [provinceName] of the exact step's callback. *)
Definition provinceNameExact (p : string) : string :=
  trim (replace provinceEntryExactRe "" (toLowerCase p)).

(** The [provinceName] of the partial step's callback. *)
Definition provinceNamePartial (p : string) : string :=
  trim (replace provinceEntryPartialRe "" (toLowerCase p)).

(** [name.toLowerCase().replace(/^(kabupaten|...)\s*/i, '')
        .replace(/\s+(kabupaten|kab|kota|city|daerah|khusus)\s*/i, ' ').trim()] *)
Definition normalizeCity (name : string) : string :=
  trim (replace cityInnerRe " " (replace cityLeadingRe "" (toLowerCase name))).

(** The [cityName] of the callbacks:
    [c.toLowerCase().replace(/^kab\.?\s*/i, '').replace(/^kota\s*/i, '').trim()] *)
Definition cityName (c : string) : string :=
  trim (replace kotaRe "" (replace kabRe "" (toLowerCase c))).

(** ** Values, arrays and exceptions *)

(** What a name variable of the source can hold. *)
Inductive value : Type :=
| VUndefined
| VNull
| VStr (s : string).

(** What a list variable of the source can hold. *)
Inductive array : Type :=
| AUndefined
| ANull
| Arr (l : list string).

(** What is thrown: the TypeError of a method call on [undefined] or
    [null]; a failed request is thrown as the same error. *)
Inductive error : Type := TypeError.

Inductive result (A : Type) : Type :=
| Ok (a : A)
| Throw (e : error).
Arguments Ok {A} a.
Arguments Throw {A} e.

Definition bindR {A B : Type} (r : result A) (k : A -> result B) : result B :=
  match r with
  | Ok a => k a
  | Throw e => Throw e
  end.

Notation "'let*' x ':=' c 'in' k" := (bindR c (fun x => k))
  (at level 10, x name, c at level 100, k at level 200).

(** [Boolean(v)]: [undefined], [null] and the empty string are falsy. *)
Definition truthy (v : value) : bool :=
  match v with
  | VStr s => negb (s =? "")
  | _ => false
  end.

(** [`${v}`] *)
Definition toString (v : value) : string :=
  match v with
  | VUndefined => "undefined"
  | VNull => "null"
  | VStr s => s
  end.

(** A string method called on a value: a TypeError on [undefined] and
    [null]. *)
Definition call (m : string -> string) (v : value) : result string :=
  match v with
  | VStr s => Ok (m s)
  | _ => Throw TypeError
  end.

(** [Array.prototype.find]: the first element the callback accepts, else
    [undefined]. *)
Fixpoint find (f : string -> bool) (l : list string) : value :=
  match l with
  | [] => VUndefined
  | x :: r => if f x then VStr x else find f r
  end.

(** [citiesList.find(f)]: a TypeError on [undefined] and [null]. *)
Definition call_find (a : array) (f : string -> bool) : result value :=
  match a with
  | Arr l => Ok (find f l)
  | _ => Throw TypeError
  end.

(** Truthiness of [citiesList?.length]. *)
Definition has_length (a : array) : bool :=
  match a with
  | Arr l => negb (Nat.eqb (List.length l) 0)
  | _ => false
  end.

(** [citiesList[0]] *)
Definition first (l : list string) : value :=
  match l with
  | [] => VUndefined
  | x :: _ => VStr x
  end.

(** ** The resolvers *)

(** The first [provinces.find] of [findMatchingProvince]. *)
Definition provinceExact (provinces : list string) (normalizedName : string) : value :=
  find (fun p => provinceNameExact p =? normalizedName) provinces.

(** The second [provinces.find] of [findMatchingProvince]. *)
Definition provincePartial (provinces : list string) (normalizedName : string) : value :=
  find (fun p =>
          let provinceName := provinceNamePartial p in
          includes provinceName normalizedName || includes normalizedName provinceName)
       provinces.

Definition findMatchingProvince (provinces : list string) (name : value) : result value :=
  if negb (truthy name) then Ok VNull else
  let* normalizedName := call normalizeProvince name in
  let match_ := provinceExact provinces normalizedName in
  if truthy match_ then Ok match_ else
  let match_ := provincePartial provinces normalizedName in
  Ok match_.

(** The first [citiesList.find] of [findMatchingCity]. *)
Definition cityExact (citiesList : array) (normalizedName : string) : result value :=
  call_find citiesList (fun c => cityName c =? normalizedName).

(** The second [citiesList.find] of [findMatchingCity]. *)
Definition cityPartial (citiesList : array) (normalizedName : string) : result value :=
  call_find citiesList
    (fun c =>
       let cityName := cityName c in
       includes cityName normalizedName || includes normalizedName cityName).

Definition findMatchingCity (name : value) (citiesList : array) : result value :=
  if negb (truthy name) then Ok VNull else
  if negb (has_length citiesList) then Ok VNull else
  let* normalizedName := call normalizeCity name in
  let* match_ := cityExact citiesList normalizedName in
  if truthy match_ then Ok match_ else
  let* match_ := cityPartial citiesList normalizedName in
  Ok match_.

(** ** Component state and the location functions *)

(** The state variables the location functions write. *)
Record component : Type := App {
  selectedProvince : value;
  selectedCity : value;
  locating : bool;
  locationError : value
}.

(** A computation over the component state that may throw; the state
    written before a throw is kept. *)
Definition M (A : Type) : Type := component -> component * result A.

Definition ret {A : Type} (a : A) : M A := fun st => (st, Ok a).

Definition bind {A B : Type} (c : M A) (k : A -> M B) : M B :=
  fun st =>
    match c st with
    | (st', Ok a) => k a st'
    | (st', Throw e) => (st', Throw e)
    end.

Definition lift {A : Type} (r : result A) : M A := fun st => (st, r).

Definition try_catch (c : M unit) (h : error -> M unit) : M unit :=
  fun st =>
    match c st with
    | (st', Throw e) => h e st'
    | done => done
    end.

Notation "x <- c ;; k" := (bind c (fun x => k))
  (at level 61, c at next level, right associativity).
Notation "c ;; k" := (bind c (fun _ => k))
  (at level 61, right associativity).

Definition setSelectedProvince (v : value) : M unit :=
  fun st => (App v (selectedCity st) (locating st) (locationError st), Ok tt).

Definition setSelectedCity (v : value) : M unit :=
  fun st => (App (selectedProvince st) v (locating st) (locationError st), Ok tt).

Definition setLocating (b : bool) : M unit :=
  fun st => (App (selectedProvince st) (selectedCity st) b (locationError st), Ok tt).

Definition setLocationError (v : value) : M unit :=
  fun st => (App (selectedProvince st) (selectedCity st) (locating st) v, Ok tt).

(** The answer of the city-list API to one request: the request or the
    parsing of its body fails, or the body has a [data] member that is an
    array or is missing. *)
Inductive response : Type :=
| NetworkError
| Json (data : option (list string)).

(** [fetchCities]: no request for a falsy province; [data.data || []] on
    an answer; [[]] from the catch clause. *)
Definition fetchCities (kabkota : string -> response) (province : value) : list string :=
  if negb (truthy province) then [] else
  match kabkota (toString province) with
  | Json (Some l) => l
  | Json None => []
  | NetworkError => []
  end.

Definition setLocation (kabkota : string -> response) (province cityName : value) : M unit :=
  setSelectedProvince province ;;
  let citiesList := fetchCities kabkota province in
  matched <- lift (findMatchingCity cityName (Arr citiesList)) ;;
  let finalCity := if truthy matched then matched else first citiesList in
  (if truthy finalCity then setSelectedCity finalCity else ret tt) ;;
  setLocating false.

Definition setDefaultLocation : M unit := setLocating false.

(** The address fields of a reverse-geocoding answer that the code reads;
    an absent field is [undefined]. *)
Module Address.
Record t : Type := Make {
  state : value;
  state_district : value;
  region : value;
  province : value;
  county : value;
  city : value;
  town : value;
  municipality : value
}.
End Address.

(** The array [provinceCandidates]. *)
Definition provinceCandidates (address : Address.t) : list value :=
  filter truthy
    [Address.state address; Address.state_district address; Address.region address;
     Address.province address; Address.county address].

(** The [for ... of] loop over the candidates: [foundProvince] is
    assigned at every round and the loop breaks on a truthy one. *)
Fixpoint provinceLoop (provinces : list string) (candidates : list value)
    (foundProvince : value) : result value :=
  match candidates with
  | [] => Ok foundProvince
  | candidate :: rest =>
      let* foundProvince := findMatchingProvince provinces candidate in
      if truthy foundProvince then Ok foundProvince
      else provinceLoop provinces rest foundProvince
  end.

(** The pair [(rawCityName, cityType)] after the if-else chain over
    [county], [city], [town] and [municipality]. *)
Definition selectCity (address : Address.t) : value * value :=
  if truthy (Address.county address) then (Address.county address, VStr "Kab.")
  else if truthy (Address.city address) then (Address.city address, VStr "Kota")
  else if truthy (Address.town address) then (Address.town address, VNull)
  else if truthy (Address.municipality address) then (Address.municipality address, VNull)
  else (VNull, VNull).

(** [cityNameForMatching] *)
Definition cityNameForMatching (rawCityName cityType : value) : value :=
  if truthy cityType then VStr (toString cityType ++ " " ++ toString rawCityName)
  else rawCityName.

(** The answer of the reverse-geocoding service: the request or the
    parsing fails, or the body has an [address] or has none. *)
Inductive geocode : Type :=
| GeocodeError
| GeocodeData (address : option Address.t).

Definition reverseGeocode (provinces : list string) (kabkota : string -> response)
    (nominatim : geocode) : M unit :=
  try_catch
    (match nominatim with
     | GeocodeError => lift (Throw TypeError)
     | GeocodeData (Some address) =>
         foundProvince <- lift (provinceLoop provinces (provinceCandidates address) VNull) ;;
         if negb (truthy foundProvince) then
           setLocationError (VStr "Provinsi tidak ditemukan dalam database") ;;
           setDefaultLocation
         else
           let (rawCityName, cityType) := selectCity address in
           if negb (truthy rawCityName) then setDefaultLocation
           else setLocation kabkota foundProvince (cityNameForMatching rawCityName cityType)
     | GeocodeData None => setDefaultLocation
     end)
    (fun _ => setDefaultLocation).

(** ** Location detection *)

(** What the platform has done of one detection: it has no
    [navigator.geolocation]; or [getCurrentPosition] has called the error
    callback; or it has called the success callback, the reverse-geocoding
    service answering [nominatim] for the position; or it has called
    neither callback, which is how things stand when [detectLocation]
    itself returns. *)
Inductive geolocation : Type :=
| Unsupported
| PositionError
| Position (nominatim : geocode)
| Pending.

Definition detectLocation (provinces : list string) (kabkota : string -> response)
    (platform : geolocation) : M unit :=
  setLocating true ;;
  setLocationError VNull ;;
  match platform with
  | Unsupported =>
      setLocationError (VStr "Geolocation tidak didukung browser") ;;
      setDefaultLocation
  | PositionError =>
      setLocationError (VStr "Lokasi tidak terdeteksi, menggunakan Jakarta") ;;
      setDefaultLocation
  | Position nominatim => reverseGeocode provinces kabkota nominatim
  | Pending => ret tt
  end.


(** ** Theme *)

(** The three places the theme lives in: the state variable [darkMode],
    the [data-theme] attribute of the document element, and the item
    [theme] of [localStorage] ([null] when there is none). *)
Record theme : Type := Theme {
  darkMode : bool;
  dataTheme : value;
  storedTheme : value
}.

(** [savedTheme === 'dark'] *)
Definition is_dark (savedTheme : value) : bool :=
  match savedTheme with
  | VStr s => s =? "dark"
  | _ => false
  end.

(** The effect that runs on mount; [prefersDark] is what the media query
    [(prefers-color-scheme: dark)] answers. *)
Definition initTheme (prefersDark : bool) (t : theme) : theme :=
  let savedTheme := storedTheme t in
  if truthy savedTheme then Theme (is_dark savedTheme) savedTheme (storedTheme t)
  else if prefersDark then Theme true (VStr "dark") (storedTheme t)
  else t.

(** The component as it mounts: [useState(false)] for [darkMode], then
    the effect. *)
Definition mountTheme (prefersDark : bool) (attribute stored : value) : theme :=
  initTheme prefersDark (Theme false attribute stored).

Definition toggleDarkMode (t : theme) : theme :=
  let newMode := negb (darkMode t) in
  Theme newMode
        (VStr (if newMode then "dark" else "light"))
        (VStr (if newMode then "dark" else "light")).

(** ** Definitions for the statements *)

(** What a resolver may answer over the list [l]: an element of [l], or
    one of the two not-found values; never an exception. *)
Definition member_or_not_found (l : list string) (r : result value) : Prop :=
  match r with
  | Ok (VStr e) => In e l
  | Ok VUndefined => True
  | Ok VNull => True
  | Throw _ => False
  end.

(** Every code unit of a string satisfies [P]. *)
Fixpoint string_forall (P : ascii -> Prop) (s : string) : Prop :=
  match s with
  | EmptyString => True
  | String c r => P c /\ string_forall P r
  end.

(** A string that [toLowerCase] keeps, unit by unit. *)
Definition lowered (s : string) : Prop :=
  string_forall (fun c => lower_char c = c) s.

(** A string that does not begin with white space. *)
Definition no_leading_space (s : string) : Prop :=
  match s with
  | EmptyString => True
  | String c _ => is_space c = false
  end.

(** [rest] is what is left of [s] after some first part. *)
Definition is_suffix (rest s : string) : Prop := exists mid, s = mid ++ rest.

(** A candidate that the province resolver answers with a falsy value. *)
Definition unresolved (provinces : list string) (c : value) : Prop :=
  exists w, findMatchingProvince provinces c = Ok w /\ truthy w = false.

(** The partial step's test of an entry's stripped form against the
    normalised query. *)
Definition contains_either (stripped normalizedName : string) : bool :=
  includes stripped normalizedName || includes normalizedName stripped.

(** A component state that differs from [st] in the flag and the error
    message only. *)
Definition same_selection (st st' : component) : Prop :=
  selectedProvince st' = selectedProvince st /\ selectedCity st' = selectedCity st.

(** Reference definition of the leading strip, to compare the patterns
    with: [prefix_ci t s] is the rest of [s] after the token [t] when [s]
    begins with the letters of [t] in either case, whatever comes after
    them. *)
Fixpoint prefix_ci (t s : string) : option string :=
  match t, s with
  | EmptyString, _ => Some s
  | String a t', String c s' =>
      if Ascii.eqb (canonicalize a) (canonicalize c) then prefix_ci t' s' else None
  | String _ _, EmptyString => None
  end.

(** The rest of [s] after the first token of the list that [s] begins
    with. *)
Fixpoint strip_first (tokens : list string) (s : string) : option string :=
  match tokens with
  | [] => None
  | t :: ts =>
      match prefix_ci t s with
      | Some r => Some r
      | None => strip_first ts s
      end
  end.

(** Reference definition: remove the first listed token that [s] begins
    with, and the white space after it; keep [s] when there is none. *)
Definition stripLeadingToken (tokens : list string) (s : string) : string :=
  match strip_first tokens s with
  | Some r => trimStart r
  | None => s
  end.

(** * Properties *)

(** ** [find] and truthiness *)

Lemma find_spec (f : string -> bool) (l : list string) (e : string) :
  find f l = VStr e -> In e l /\ f e = true.
Proof.
  induction l as [|x r IH]; simpl; [discriminate|].
  destruct (f x) eqn:Hx.
  - intros [= <-]. auto.
  - intros H. destruct (IH H). auto.
Qed.

Lemma find_first (f : string -> bool) (l1 l2 : list string) (e : string) :
  Forall (fun x => f x = false) l1 -> f e = true ->
  find f (l1 ++ e :: l2) = VStr e.
Proof.
  induction 1 as [|x r Hx _ IH]; simpl; intros He.
  - now rewrite He.
  - rewrite Hx. auto.
Qed.

Lemma find_some (f : string -> bool) (l : list string) (x : string) :
  In x l -> f x = true -> exists e, find f l = VStr e.
Proof.
  induction l as [|y r IH]; simpl; [tauto|].
  intros [-> | Hin] Hx.
  - rewrite Hx. eauto.
  - destruct (f y); eauto.
Qed.

Lemma truthy_VStr (v : value) :
  truthy v = true -> exists s, v = VStr s /\ s <> "".
Proof.
  destruct v as [| |s]; simpl; try discriminate.
  destruct (String.eqb_spec s ""); [discriminate|]. eauto.
Qed.

Lemma truthy_nonempty (s : string) : s <> "" -> truthy (VStr s) = true.
Proof.
  intros H. simpl. destruct (String.eqb_spec s ""); [contradiction | reflexivity].
Qed.

Lemma find_member (f : string -> bool) (l : list string) :
  member_or_not_found l (Ok (find f l)).
Proof.
  unfold member_or_not_found.
  destruct (find f l) as [| |e] eqn:H; auto.
  now apply find_spec in H.
Qed.

(** The resolvers on a truthy name. *)
Lemma findMatchingProvince_truthy (provinces : list string) (s : string) :
  s <> "" ->
  findMatchingProvince provinces (VStr s) =
  Ok (if truthy (provinceExact provinces (normalizeProvince s))
      then provinceExact provinces (normalizeProvince s)
      else provincePartial provinces (normalizeProvince s)).
Proof.
  intros H. unfold findMatchingProvince.
  rewrite (truthy_nonempty _ H). simpl.
  now destruct (truthy (provinceExact provinces (normalizeProvince s))).
Qed.

Lemma findMatchingCity_total (name : value) (citiesList : array) :
  exists v, findMatchingCity name citiesList = Ok v.
Proof.
  unfold findMatchingCity.
  destruct (truthy name) eqn:Hn; simpl; [|eauto].
  destruct name as [| |s]; try discriminate.
  destruct citiesList as [| |[|x l]];
    cbn [negb has_length List.length Nat.eqb bindR call cityExact cityPartial call_find];
    eauto.
  destruct (truthy (find _ _)); eauto.
Qed.

Lemma findMatchingCity_member (name : value) (l : list string) :
  member_or_not_found l (findMatchingCity name (Arr l)).
Proof.
  unfold findMatchingCity.
  destruct (truthy name) eqn:Hn; simpl; [|exact I].
  destruct name as [| |s]; try discriminate.
  destruct l as [|x l]; [exact I|].
  cbn [negb has_length List.length Nat.eqb bindR call cityExact cityPartial call_find].
  destruct (truthy (find _ _)); apply find_member.
Qed.

Lemma findMatchingProvince_member (provinces : list string) (name : value) :
  member_or_not_found provinces (findMatchingProvince provinces name).
Proof.
  unfold findMatchingProvince.
  destruct (truthy name) eqn:Hn; simpl; [|exact I].
  destruct name as [| |s]; try discriminate.
  unfold provinceExact, provincePartial. cbn [call bindR].
  destruct (truthy (find _ _)); apply find_member.
Qed.

Lemma findMatchingProvince_falsy (provinces : list string) (name : value) :
  truthy name = false -> findMatchingProvince provinces name = Ok VNull.
Proof.
  intros H. unfold findMatchingProvince. now rewrite H.
Qed.

(** ** The resolvers answer from the list *)

(** C3: whatever the query and the reference list, the province resolver
    answers an element of the list it was given, as it stands in the
    list, or a not-found value ([null] or [undefined]); the city resolver
    does the same over its scoped list. *)
Theorem resolvers_answer_from_list :
  (forall (provinces : list string) (name : value),
      member_or_not_found provinces (findMatchingProvince provinces name)) /\
  (forall (name : value) (citiesList : list string),
      member_or_not_found citiesList (findMatchingCity name (Arr citiesList))).
Proof.
  split.
  - exact findMatchingProvince_member.
  - exact findMatchingCity_member.
Qed.

(** ** The resolvers do not throw *)

(** C9: on every name (a string, [null] or [undefined]) and every list
    (an array, [null] or [undefined]) the resolvers return a value; an
    absent or empty name gives [null], and so does an absent or empty
    city list. *)
Theorem resolvers_never_throw :
  (forall (provinces : list string) (name : value),
      exists v, findMatchingProvince provinces name = Ok v) /\
  (forall (name : value) (citiesList : array),
      exists v, findMatchingCity name citiesList = Ok v) /\
  (forall provinces : list string,
      findMatchingProvince provinces VUndefined = Ok VNull /\
      findMatchingProvince provinces VNull = Ok VNull /\
      findMatchingProvince provinces (VStr "") = Ok VNull) /\
  (forall citiesList : array,
      findMatchingCity VUndefined citiesList = Ok VNull /\
      findMatchingCity VNull citiesList = Ok VNull /\
      findMatchingCity (VStr "") citiesList = Ok VNull) /\
  (forall name : value,
      findMatchingCity name AUndefined = Ok VNull /\
      findMatchingCity name ANull = Ok VNull /\
      findMatchingCity name (Arr []) = Ok VNull).
Proof.
  repeat split; try reflexivity.
  - intros provinces name.
    pose proof (findMatchingProvince_member provinces name) as H.
    destruct (findMatchingProvince provinces name) as [v|e]; [eauto | destruct H].
  - apply findMatchingCity_total.
  - unfold findMatchingCity. now destruct (truthy name).
  - unfold findMatchingCity. now destruct (truthy name).
  - unfold findMatchingCity. now destruct (truthy name).
Qed.

(** ** [setLocation] *)

Lemma setLocation_unfold (kabkota : string -> response) (province cityName : value)
    (st : component) (matched : value) :
  findMatchingCity cityName (Arr (fetchCities kabkota province)) = Ok matched ->
  setLocation kabkota province cityName st =
  (App province
       (let finalCity := if truthy matched then matched
                         else first (fetchCities kabkota province) in
        if truthy finalCity then finalCity else selectedCity st)
       false (locationError st), Ok tt).
Proof.
  intros H. unfold setLocation, bind, lift, setSelectedProvince. rewrite H.
  cbv zeta.
  destruct (truthy (if truthy matched then matched else first _)); reflexivity.
Qed.

(** C10: when the city list that [fetchCities] hands over is empty,
    [setLocation] records the province, clears the locating flag, leaves
    the selected city as it was, leaves the location error as it was, and
    ends without an exception. *)
Theorem setLocation_empty_list (kabkota : string -> response)
    (province cityName : value) (st : component) :
  fetchCities kabkota province = [] ->
  setLocation kabkota province cityName st =
  (App province (selectedCity st) false (locationError st), Ok tt).
Proof.
  intros H.
  rewrite (setLocation_unfold kabkota province cityName st VNull).
  - rewrite H. reflexivity.
  - rewrite H. unfold findMatchingCity. now destruct (truthy cityName).
Qed.

Lemma setLocation_empty_list_witness :
  fetchCities (fun _ => NetworkError) (VStr "Aceh") = [] /\
  setLocation (fun _ => NetworkError) (VStr "Aceh") (VStr "Kab. Sleman")
              (App VNull (VStr "Kota Bandung") true VNull) =
  (App (VStr "Aceh") (VStr "Kota Bandung") false VNull, Ok tt).
Proof.
  split; [reflexivity|].
  apply (setLocation_empty_list (fun _ => NetworkError) (VStr "Aceh")
           (VStr "Kab. Sleman") (App VNull (VStr "Kota Bandung") true VNull)).
  reflexivity.
Defined.

(** The three ways [fetchCities] comes back empty for a province. *)
Lemma fetchCities_empty (kabkota : string -> response) (province : value) :
  kabkota (toString province) = NetworkError \/
  kabkota (toString province) = Json None \/
  kabkota (toString province) = Json (Some []) ->
  fetchCities kabkota province = [].
Proof.
  unfold fetchCities. destruct (truthy province); simpl; [|reflexivity].
  intros [-> | [-> | ->]]; reflexivity.
Qed.

(** C6, as the code has it: for every city name and every city list
    whose first entry is a non-empty string, [setLocation] selects a city
    of the list and ends without an exception; the city is the resolver's
    answer when that is truthy, and the first entry of the list
    otherwise. *)
Theorem setLocation_selects_from_list (kabkota : string -> response)
    (province cityName : value) (st : component) (c : string) (cs : list string) :
  fetchCities kabkota province = c :: cs ->
  c <> "" ->
  exists (e : string) (matched : value),
    setLocation kabkota province cityName st =
      (App province (VStr e) false (locationError st), Ok tt) /\
    In e (c :: cs) /\
    findMatchingCity cityName (Arr (c :: cs)) = Ok matched /\
    VStr e = (if truthy matched then matched else VStr c).
Proof.
  intros Hf Hc.
  destruct (findMatchingCity_total cityName (Arr (c :: cs))) as [matched Hm].
  pose proof (findMatchingCity_member cityName (c :: cs)) as Hin.
  rewrite Hm in Hin.
  rewrite (setLocation_unfold kabkota province cityName st matched)
    by (now rewrite Hf).
  rewrite Hf. cbn [first]. cbv zeta.
  destruct (truthy matched) eqn:Ht.
  - destruct (truthy_VStr _ Ht) as [e [-> _]].
    exists e, (VStr e). rewrite Ht. auto.
  - exists c, matched. rewrite (truthy_nonempty _ Hc), Ht.
    repeat split; auto. now left.
Qed.

Lemma setLocation_selects_from_list_witness :
  exists (e : string) (matched : value),
    setLocation (fun _ => Json (Some ["Kota Jakarta Utara"])) (VStr "DKI Jakarta")
                (VStr "Tanjung Priok") (App VNull VNull true VNull) =
      (App (VStr "DKI Jakarta") (VStr e) false VNull, Ok tt) /\
    In e ["Kota Jakarta Utara"] /\
    findMatchingCity (VStr "Tanjung Priok") (Arr ["Kota Jakarta Utara"]) = Ok matched /\
    VStr e = (if truthy matched then matched else VStr "Kota Jakarta Utara").
Proof.
  apply (setLocation_selects_from_list (fun _ => Json (Some ["Kota Jakarta Utara"]))
           (VStr "DKI Jakarta") (VStr "Tanjung Priok") (App VNull VNull true VNull)
           "Kota Jakarta Utara" []).
  - reflexivity.
  - discriminate.
Defined.

(** C6 as stated fails on a non-empty list whose first entry is the
    empty string: the resolver answers the empty string, the fallback is
    the empty string too, and no city is selected. *)
Lemma setLocation_empty_first_entry :
  fetchCities (fun _ => Json (Some [""])) (VStr "Aceh") = [""] /\
  findMatchingCity (VStr "Sleman") (Arr [""]) = Ok (VStr "") /\
  setLocation (fun _ => Json (Some [""])) (VStr "Aceh") (VStr "Sleman")
              (App VNull VNull true VNull) =
  (App (VStr "Aceh") VNull false VNull, Ok tt) /\
  ~ (exists e,
        selectedCity (fst (setLocation (fun _ => Json (Some [""])) (VStr "Aceh")
                             (VStr "Sleman") (App VNull VNull true VNull)))
        = VStr e /\ In e [""]).
Proof.
  repeat split; try (vm_compute; reflexivity).
  intros [e [H _]]. vm_compute in H. discriminate H.
Qed.

(** ** Province candidates *)

Lemma provinceLoop_first (provinces : list string) (c : value) (rest : list value)
    (fp v : value) :
  findMatchingProvince provinces c = Ok v -> truthy v = true ->
  provinceLoop provinces (c :: rest) fp = Ok v.
Proof.
  intros H Hv. simpl. rewrite H. simpl. now rewrite Hv.
Qed.

Lemma provinceLoop_skip (provinces : list string) (c : value) (rest : list value)
    (fp : value) :
  truthy c = false ->
  provinceLoop provinces (c :: rest) fp = provinceLoop provinces rest VNull.
Proof.
  intros H. simpl. rewrite (findMatchingProvince_falsy _ _ H). reflexivity.
Qed.

Lemma provinceCandidates_truthy (address : Address.t) :
  Forall (fun c => truthy c = true) (provinceCandidates address).
Proof.
  apply Forall_forall. intros c H. apply filter_In in H. tauto.
Qed.

Lemma find_split (f : string -> bool) (l : list string) (e : string) :
  find f l = VStr e ->
  exists l1 l2 : list string,
    l = (l1 ++ e :: l2)%list /\ Forall (fun x => f x = false) l1 /\ f e = true.
Proof.
  induction l as [|x r IH]; simpl; [discriminate|].
  destruct (f x) eqn:Hx.
  - intros [= <-]. exists [], r. auto.
  - intros H. destruct (IH H) as [l1 [l2 (-> & Hl1 & He)]].
    exists (x :: l1), l2. auto.
Qed.

Lemma resolve_jawa_tengah (provinces : list string) (p : string) :
  In p provinces -> provinceNameExact p = "jawa tengah" ->
  exists (e : string) (l1 l2 : list string),
    findMatchingProvince provinces (VStr "Jawa Tengah") = Ok (VStr e) /\
    provinces = (l1 ++ e :: l2)%list /\
    provinceNameExact e = "jawa tengah" /\
    Forall (fun x => provinceNameExact x <> "jawa tengah") l1 /\
    e <> "".
Proof.
  intros Hin Hp.
  rewrite findMatchingProvince_truthy by discriminate.
  change (normalizeProvince "Jawa Tengah") with "jawa tengah".
  destruct (find_some (fun x => provinceNameExact x =? "jawa tengah") provinces p Hin)
    as [e He].
  { now apply String.eqb_eq. }
  unfold provinceExact. rewrite He.
  destruct (find_split _ _ _ He) as [l1 [l2 (Hl & Hl1 & Hf)]].
  apply String.eqb_eq in Hf.
  assert (Hne : e <> "") by (intros ->; discriminate Hf).
  exists e, l1, l2. rewrite (truthy_nonempty _ Hne).
  repeat split; auto.
  eapply Forall_impl; [|exact Hl1]. intros x Hx. now apply String.eqb_neq.
Qed.

Lemma unresolved_filter (provinces : list string) (l : list value) :
  Forall (unresolved provinces) l -> Forall (unresolved provinces) (filter truthy l).
Proof.
  intros H. apply Forall_forall. intros c Hc. apply filter_In in Hc.
  rewrite Forall_forall in H. now apply H.
Qed.

Lemma provinceLoop_past_unresolved (provinces : list string) (pre : list value)
    (f : value) (post : list value) (v : value) :
  Forall (unresolved provinces) pre ->
  findMatchingProvince provinces f = Ok v -> truthy v = true ->
  forall foundProvince,
    provinceLoop provinces (pre ++ f :: post) foundProvince = Ok v.
Proof.
  intros Hpre Hf Hv. induction Hpre as [|c pre [w [Hc Hw]] _ IH]; intros fp.
  - now apply provinceLoop_first.
  - simpl. rewrite Hc. simpl. rewrite Hw. apply IH.
Qed.

Lemma provinceLoop_none (provinces : list string) (candidates : list value) :
  Forall (fun c => exists v, findMatchingProvince provinces c = Ok v /\ truthy v = false)
         candidates ->
  forall foundProvince,
    truthy foundProvince = false ->
    exists v, provinceLoop provinces candidates foundProvince = Ok v /\ truthy v = false.
Proof.
  induction 1 as [|c rest [v [Hc Hv]] _ IH]; intros fp Hfp; simpl.
  - eauto.
  - rewrite Hc. simpl. rewrite Hv. now apply IH.
Qed.

Lemma resolved_truthy (provinces : list string) (f v : value) :
  findMatchingProvince provinces f = Ok v -> truthy v = true -> truthy f = true.
Proof.
  intros Hf Hv. destruct (truthy f) eqn:Ht; [reflexivity|].
  rewrite (findMatchingProvince_falsy _ _ Ht) in Hf. injection Hf as <-.
  discriminate Hv.
Qed.

(** C7: the candidates are the five fields [state], [state_district],
    [region], [province], [county] in that order, and the loop answers
    for the first of them that resolves: whatever field it is, when every
    field ahead of it is unresolved (empty, absent, or a name the
    resolver finds no entry for), the loop returns that field's answer;
    when no field resolves, the loop ends falsy.  With an empty or absent
    [state] and [state_district] "Jawa Tengah", and on the unfiltered
    list ["", "Jawa Tengah"] alike, the answer is the first entry of the
    province list whose stripped form is "jawa tengah".  The candidate
    array holds no falsy value, and a falsy candidate is answered with
    [null], never with an entry. *)
Theorem candidates_in_order_falsy_skipped (provinces : list string)
    (address : Address.t) :
  (forall (pre : list value) (f : value) (post : list value) (v : value),
      [Address.state address; Address.state_district address; Address.region address;
       Address.province address; Address.county address] = (pre ++ f :: post)%list ->
      Forall (unresolved provinces) pre ->
      findMatchingProvince provinces f = Ok v -> truthy v = true ->
      provinceLoop provinces (provinceCandidates address) VNull = Ok v) /\
  (Forall (unresolved provinces)
          [Address.state address; Address.state_district address; Address.region address;
           Address.province address; Address.county address] ->
   exists v, provinceLoop provinces (provinceCandidates address) VNull = Ok v /\
             truthy v = false) /\
  (truthy (Address.state address) = false ->
   Address.state_district address = VStr "Jawa Tengah" ->
   forall p : string,
     In p provinces -> provinceNameExact p = "jawa tengah" ->
     exists (e : string) (l1 l2 : list string),
       provinceLoop provinces (provinceCandidates address) VNull = Ok (VStr e) /\
       provinceLoop provinces [VStr ""; VStr "Jawa Tengah"] VNull = Ok (VStr e) /\
       findMatchingProvince provinces (VStr "Jawa Tengah") = Ok (VStr e) /\
       provinces = (l1 ++ e :: l2)%list /\
       provinceNameExact e = "jawa tengah" /\
       Forall (fun x => provinceNameExact x <> "jawa tengah") l1) /\
  Forall (fun c => truthy c = true) (provinceCandidates address) /\
  (forall (c : value) (rest : list value) (v : value),
      findMatchingProvince provinces c = Ok v -> truthy v = true ->
      provinceLoop provinces (c :: rest) VNull = Ok v) /\
  (forall name : value,
      truthy name = false -> findMatchingProvince provinces name = Ok VNull).
Proof.
  assert (Horder :
    forall pre f post v,
      [Address.state address; Address.state_district address; Address.region address;
       Address.province address; Address.county address] = (pre ++ f :: post)%list ->
      Forall (unresolved provinces) pre ->
      findMatchingProvince provinces f = Ok v -> truthy v = true ->
      provinceLoop provinces (provinceCandidates address) VNull = Ok v).
  { intros pre f post v Hfields Hpre Hf Hv.
    unfold provinceCandidates. rewrite Hfields, filter_app.
    cbn [filter]. rewrite (resolved_truthy _ _ _ Hf Hv).
    apply provinceLoop_past_unresolved; auto using unresolved_filter. }
  split; [exact Horder|].
  split.
  { intros Hall. apply provinceLoop_none; [|reflexivity].
    exact (unresolved_filter _ _ Hall). }
  split.
  { intros Hs Hd p Hin Hp.
    destruct (resolve_jawa_tengah provinces p Hin Hp)
      as [e [l1 [l2 (He & Hl & Hn & Hl1 & Hne)]]].
    exists e, l1, l2. repeat split; auto.
    - apply (Horder [Address.state address] (Address.state_district address)
               [Address.region address; Address.province address;
                Address.county address]).
      + reflexivity.
      + repeat constructor. exists VNull.
        split; [now apply findMatchingProvince_falsy | reflexivity].
      + now rewrite Hd.
      + now apply truthy_nonempty.
    - rewrite provinceLoop_skip by reflexivity.
      apply provinceLoop_first; [exact He | now apply truthy_nonempty]. }
  split; [apply provinceCandidates_truthy|].
  split.
  - intros c rest v. apply provinceLoop_first.
  - apply findMatchingProvince_falsy.
Qed.

Lemma candidates_in_order_falsy_skipped_witness :
  (exists (e : string) (l1 l2 : list string),
      provinceLoop ["Jawa Barat"; "Provinsi Jawa Tengah"; "Jawa Timur"]
        (provinceCandidates
           (Address.Make (VStr "") (VStr "Jawa Tengah") VUndefined VUndefined
                         (VStr "Semarang") VUndefined VUndefined VUndefined))
        VNull = Ok (VStr e) /\
      provinceLoop ["Jawa Barat"; "Provinsi Jawa Tengah"; "Jawa Timur"]
        [VStr ""; VStr "Jawa Tengah"] VNull = Ok (VStr e) /\
      findMatchingProvince ["Jawa Barat"; "Provinsi Jawa Tengah"; "Jawa Timur"]
        (VStr "Jawa Tengah") = Ok (VStr e) /\
      ["Jawa Barat"; "Provinsi Jawa Tengah"; "Jawa Timur"] = (l1 ++ e :: l2)%list /\
      provinceNameExact e = "jawa tengah" /\
      Forall (fun x => provinceNameExact x <> "jawa tengah") l1) /\
  provinceLoop ["Jawa Barat"; "Jawa Tengah"; "Jawa Timur"]
    (provinceCandidates
       (Address.Make (VStr "Nusantara") (VStr "Jawa Tengah") (VStr "Jawa Timur")
                     VUndefined VUndefined VUndefined VUndefined VUndefined))
    VNull = Ok (VStr "Jawa Tengah") /\
  provinceLoop ["Jawa Barat"; "Jawa Tengah"; "Jawa Timur"]
    (provinceCandidates
       (Address.Make (VStr "Jawa Barat") (VStr "Jawa Tengah") VUndefined
                     VUndefined VUndefined VUndefined VUndefined VUndefined))
    VNull = Ok (VStr "Jawa Barat").
Proof.
  split; [|split].
  - apply (proj1 (proj2 (proj2 (candidates_in_order_falsy_skipped
             ["Jawa Barat"; "Provinsi Jawa Tengah"; "Jawa Timur"]
             (Address.Make (VStr "") (VStr "Jawa Tengah") VUndefined VUndefined
                           (VStr "Semarang") VUndefined VUndefined VUndefined))))
             eq_refl eq_refl "Provinsi Jawa Tengah").
    + simpl. auto.
    + vm_compute. reflexivity.
  - apply (proj1 (candidates_in_order_falsy_skipped
             ["Jawa Barat"; "Jawa Tengah"; "Jawa Timur"]
             (Address.Make (VStr "Nusantara") (VStr "Jawa Tengah") (VStr "Jawa Timur")
                           VUndefined VUndefined VUndefined VUndefined VUndefined))
             [VStr "Nusantara"] (VStr "Jawa Tengah")
             [VStr "Jawa Timur"; VUndefined; VUndefined]).
    + reflexivity.
    + repeat constructor. exists VUndefined. split; vm_compute; reflexivity.
    + vm_compute. reflexivity.
    + reflexivity.
  - apply (proj1 (candidates_in_order_falsy_skipped
             ["Jawa Barat"; "Jawa Tengah"; "Jawa Timur"]
             (Address.Make (VStr "Jawa Barat") (VStr "Jawa Tengah") VUndefined
                           VUndefined VUndefined VUndefined VUndefined VUndefined))
             [] (VStr "Jawa Barat")
             [VStr "Jawa Tengah"; VUndefined; VUndefined; VUndefined]).
    + reflexivity.
    + constructor.
    + vm_compute. reflexivity.
    + reflexivity.
Defined.

(** ** The scenario of "Daerah Khusus Ibukota Jakarta" *)

Lemma find_filter (f g : string -> bool) (l : list string) :
  (forall x, f x = true -> g x = true) ->
  find f (filter g l) = find f l.
Proof.
  intros H. induction l as [|x r IH]; simpl; [reflexivity|].
  destruct (f x) eqn:Hf.
  - rewrite (H x Hf). simpl. now rewrite Hf.
  - destruct (g x); simpl; [rewrite Hf|]; exact IH.
Qed.

(** C4 as stated fails: against the list ["DKI Jakarta"] the query is
    matched at neither step and the answer is [undefined]. *)
Lemma jakarta_query_not_found :
  normalizeProvince "Daerah Khusus Ibukota Jakarta" = "khusus ibukota jakarta" /\
  provincePartial ["DKI Jakarta"] (normalizeProvince "Daerah Khusus Ibukota Jakarta")
    = VUndefined /\
  findMatchingProvince ["DKI Jakarta"] (VStr "Daerah Khusus Ibukota Jakarta")
    = Ok VUndefined /\
  findMatchingProvince ["DKI Jakarta"] (VStr "Daerah Khusus Ibukota Jakarta")
    <> Ok (VStr "DKI Jakarta").
Proof.
  repeat split; try (vm_compute; reflexivity).
  intros H. vm_compute in H. discriminate H.
Qed.

(** C4, as the code has it: the query "Daerah Khusus Ibukota Jakarta" is
    normalised to "khusus ibukota jakarta" and the entry "DKI Jakarta" is
    stripped to "dki jakarta"; neither contains the other, so for every
    reference list the entry "DKI Jakarta" has no part in the answer, and
    against the list ["DKI Jakarta"] the answer is the not-found value
    [undefined].  The query "Jakarta" does resolve to "DKI Jakarta", at
    the partial step. *)
Theorem daerah_khusus_ibukota_jakarta :
  normalizeProvince "Daerah Khusus Ibukota Jakarta" = "khusus ibukota jakarta" /\
  provinceNameExact "DKI Jakarta" = "dki jakarta" /\
  provinceNamePartial "DKI Jakarta" = "dki jakarta" /\
  (forall provinces : list string,
      findMatchingProvince provinces (VStr "Daerah Khusus Ibukota Jakarta") =
      findMatchingProvince (filter (fun p => negb (p =? "DKI Jakarta")) provinces)
                           (VStr "Daerah Khusus Ibukota Jakarta")) /\
  findMatchingProvince ["DKI Jakarta"] (VStr "Daerah Khusus Ibukota Jakarta")
    = Ok VUndefined /\
  provinceExact ["DKI Jakarta"] (normalizeProvince "Jakarta") = VUndefined /\
  findMatchingProvince ["DKI Jakarta"] (VStr "Jakarta") = Ok (VStr "DKI Jakarta").
Proof.
  split; [vm_compute; reflexivity|].
  split; [vm_compute; reflexivity|].
  split; [vm_compute; reflexivity|].
  split; [|repeat split; vm_compute; reflexivity].
  intros provinces.
  rewrite !findMatchingProvince_truthy by discriminate.
  change (normalizeProvince "Daerah Khusus Ibukota Jakarta")
    with "khusus ibukota jakarta".
  unfold provinceExact, provincePartial.
  rewrite !find_filter; [reflexivity| |];
    intros x Hx; destruct (String.eqb_spec x "DKI Jakarta") as [->|]; auto;
    vm_compute in Hx; discriminate Hx.
Qed.

(** ** The scenario of the county "Sleman" *)

(** C5: the code on the address with the only field [county] "Sleman" and
    the city list ["Kab. Sleman", "Kota Yogyakarta"].  The selector and the
    query are as the claim says; the normalised query keeps the period of
    "Kab." (". sleman"), the exact step finds nothing, and the answer
    "Kab. Sleman" comes from the partial step.  On the county "Bandung
    Barat" the same period sends the resolver to "Kab. Bandung". *)
Theorem county_sleman_matched_at_partial_step :
  let address := Address.Make VUndefined VUndefined VUndefined VUndefined
                              (VStr "Sleman") VUndefined VUndefined VUndefined in
  let citiesList := Arr ["Kab. Sleman"; "Kota Yogyakarta"] in
  selectCity address = (VStr "Sleman", VStr "Kab.") /\
  cityNameForMatching (VStr "Sleman") (VStr "Kab.") = VStr "Kab. Sleman" /\
  normalizeCity "Kab. Sleman" = ". sleman" /\
  cityName "Kab. Sleman" = "sleman" /\
  cityExact citiesList (normalizeCity "Kab. Sleman") = Ok VUndefined /\
  cityPartial citiesList (normalizeCity "Kab. Sleman") = Ok (VStr "Kab. Sleman") /\
  findMatchingCity (VStr "Kab. Sleman") citiesList = Ok (VStr "Kab. Sleman") /\
  findMatchingCity (VStr "Kab. Bandung Barat")
                   (Arr ["Kab. Bandung"; "Kab. Bandung Barat"; "Kota Bandung"])
    = Ok (VStr "Kab. Bandung").
Proof.
  repeat split; vm_compute; reflexivity.
Qed.

(** ** Round trip of an entry's stripped form *)

Lemma find_first_eqb (strip : string -> string) (q : string)
    (l1 l2 : list string) (e : string) :
  Forall (fun x => strip x <> q) l1 -> strip e = q ->
  find (fun x => strip x =? q) (l1 ++ e :: l2) = VStr e.
Proof.
  intros H He. apply find_first.
  - eapply Forall_impl; [|exact H]. intros x Hx. now apply String.eqb_neq.
  - now apply String.eqb_eq.
Qed.

(** C1, as the code has it: take an entry of a province list whose
    stripped-and-lowercased form is not empty, is left as it is by the
    query normaliser, and is not the stripped form of an earlier entry of
    the list; resolving that form against the list answers the entry.
    The same holds for a city list with the city rules. *)
Theorem stripped_form_resolves_to_entry :
  (forall (l1 l2 : list string) (e : string),
      provinceNameExact e <> "" ->
      normalizeProvince (provinceNameExact e) = provinceNameExact e ->
      Forall (fun x => provinceNameExact x <> provinceNameExact e) l1 ->
      findMatchingProvince (l1 ++ e :: l2) (VStr (provinceNameExact e)) = Ok (VStr e)) /\
  (forall (l1 l2 : list string) (e : string),
      cityName e <> "" ->
      normalizeCity (cityName e) = cityName e ->
      Forall (fun x => cityName x <> cityName e) l1 ->
      findMatchingCity (VStr (cityName e)) (Arr (l1 ++ e :: l2)) = Ok (VStr e)).
Proof.
  split; intros l1 l2 e Hne Hn Hl1.
  - assert (He : e <> "") by (intros ->; now apply Hne).
    rewrite findMatchingProvince_truthy by exact Hne.
    rewrite Hn. unfold provinceExact.
    rewrite (find_first_eqb provinceNameExact _ l1 l2 e Hl1 eq_refl).
    now rewrite (truthy_nonempty _ He).
  - assert (He : e <> "") by (intros ->; now apply Hne).
    unfold findMatchingCity, cityExact, call_find.
    rewrite (truthy_nonempty _ Hne).
    replace (has_length (Arr (l1 ++ e :: l2))) with true
      by (destruct l1; reflexivity).
    cbn [negb call bindR]. rewrite Hn.
    rewrite (find_first_eqb cityName _ l1 l2 e Hl1 eq_refl).
    now rewrite (truthy_nonempty _ He).
Qed.

Lemma stripped_form_resolves_to_entry_witness :
  findMatchingProvince (["Aceh"; "Bali"] ++ "D.I. Yogyakarta" :: ["DKI Jakarta"])
                       (VStr (provinceNameExact "D.I. Yogyakarta"))
    = Ok (VStr "D.I. Yogyakarta") /\
  findMatchingCity (VStr (cityName "Kota Yogyakarta"))
                   (Arr (["Kab. Bantul"; "Kab. Sleman"] ++ "Kota Yogyakarta" :: []))
    = Ok (VStr "Kota Yogyakarta").
Proof.
  split.
  - apply (proj1 stripped_form_resolves_to_entry ["Aceh"; "Bali"] ["DKI Jakarta"]
             "D.I. Yogyakarta").
    + vm_compute. discriminate.
    + vm_compute. reflexivity.
    + repeat constructor; vm_compute; discriminate.
  - apply (proj2 stripped_form_resolves_to_entry ["Kab. Bantul"; "Kab. Sleman"] []
             "Kota Yogyakarta").
    + vm_compute. discriminate.
    + vm_compute. reflexivity.
    + repeat constructor; vm_compute; discriminate.
Defined.

(** C1 as stated fails in three ways: two entries share a stripped form
    and the earlier one is answered; the query normaliser changes the
    stripped form and another entry is answered; the stripped form is
    empty and the answer is [null]. *)
Lemma stripped_form_resolves_elsewhere :
  (In "Kota Bandung" ["Kab. Bandung"; "Kota Bandung"] /\
   cityName "Kota Bandung" = "bandung" /\
   findMatchingCity (VStr (cityName "Kota Bandung"))
                    (Arr ["Kab. Bandung"; "Kota Bandung"])
     = Ok (VStr "Kab. Bandung") /\
   findMatchingCity (VStr (cityName "Kota Bandung"))
                    (Arr ["Kab. Bandung"; "Kota Bandung"])
     <> Ok (VStr "Kota Bandung")) /\
  (In "Kab. Lima Puluh Kota" ["Kab. Lima Puluh"; "Kab. Lima Puluh Kota"] /\
   cityName "Kab. Lima Puluh Kota" = "lima puluh kota" /\
   findMatchingCity (VStr (cityName "Kab. Lima Puluh Kota"))
                    (Arr ["Kab. Lima Puluh"; "Kab. Lima Puluh Kota"])
     = Ok (VStr "Kab. Lima Puluh")) /\
  (In "Provinsi" ["Provinsi"] /\
   provinceNameExact "Provinsi" = "" /\
   findMatchingProvince ["Provinsi"] (VStr (provinceNameExact "Provinsi")) = Ok VNull).
Proof.
  repeat split; try (vm_compute; reflexivity); simpl; auto.
  intros H. vm_compute in H. discriminate H.
Qed.

(** ** Strings *)

Lemma append_assoc (a b c : string) : (a ++ b) ++ c = a ++ b ++ c.
Proof. induction a as [|x r IH]; simpl; [reflexivity | now rewrite IH]. Qed.

Lemma length_append (a b : string) :
  String.length (a ++ b) = String.length a + String.length b.
Proof. induction a as [|x r IH]; simpl; [reflexivity | now rewrite IH]. Qed.

Lemma string_forall_append (P : ascii -> Prop) (a b : string) :
  string_forall P (a ++ b) <-> string_forall P a /\ string_forall P b.
Proof. induction a as [|x r IH]; simpl; tauto. Qed.

Lemma lower_char_idem (c : ascii) : lower_char (lower_char c) = lower_char c.
Proof.
  destruct c as [[] [] [] [] [] [] [] []]; reflexivity.
Qed.

Lemma lowered_toLowerCase (s : string) : lowered (toLowerCase s).
Proof.
  induction s as [|c r IH]; simpl; [exact I|].
  split; [apply lower_char_idem | exact IH].
Qed.

Lemma lowered_fix (s : string) : lowered s -> toLowerCase s = s.
Proof.
  induction s as [|c r IH]; simpl; [reflexivity|].
  intros [Hc Hr]. now rewrite Hc, (IH Hr).
Qed.

Lemma is_suffix_refl (s : string) : is_suffix s s.
Proof. now exists "". Qed.

Lemma is_suffix_trans (a b c : string) :
  is_suffix a b -> is_suffix b c -> is_suffix a c.
Proof.
  intros [m1 ->] [m2 ->]. exists (m2 ++ m1). now rewrite append_assoc.
Qed.

Lemma is_suffix_cons (a : string) (c : ascii) (s : string) :
  is_suffix a s -> is_suffix a (String c s).
Proof. intros [m ->]. now exists (String c m). Qed.

Lemma lowered_suffix (rest s : string) : is_suffix rest s -> lowered s -> lowered rest.
Proof.
  intros [m ->] H. now apply string_forall_append in H.
Qed.

(** ** [trim] *)

Lemma trimStart_suffix (s : string) : is_suffix (trimStart s) s.
Proof.
  induction s as [|c r IH]; simpl; [apply is_suffix_refl|].
  destruct (is_space c); [now apply is_suffix_cons | apply is_suffix_refl].
Qed.

Lemma trimStart_length (s : string) : String.length (trimStart s) <= String.length s.
Proof.
  destruct (trimStart_suffix s) as [m H]. rewrite H at 2.
  rewrite length_append. lia.
Qed.

Lemma lowered_trimEnd (s : string) : lowered s -> lowered (trimEnd s).
Proof.
  unfold lowered.
  induction s as [|c r IH]; simpl; [auto|].
  intros [Hc Hr]. specialize (IH Hr).
  destruct (trimEnd r) as [|c' r'].
  - destruct (is_space c); simpl; auto.
  - simpl in *. tauto.
Qed.

Lemma lowered_trim (s : string) : lowered s -> lowered (trim s).
Proof.
  intros H. apply lowered_trimEnd. exact (lowered_suffix _ _ (trimStart_suffix s) H).
Qed.

Lemma trimEnd_idem (s : string) : trimEnd (trimEnd s) = trimEnd s.
Proof.
  induction s as [|c r IH]; simpl; [reflexivity|].
  destruct (trimEnd r) as [|c' r'] eqn:Hr.
  - destruct (is_space c) eqn:Hc; simpl; [reflexivity | now rewrite Hc].
  - change (trimEnd (String c (String c' r'))) with
      (match trimEnd (String c' r') with
       | EmptyString => if is_space c then EmptyString else String c EmptyString
       | r'' => String c r''
       end).
    now rewrite IH.
Qed.

Lemma trimStart_no_leading_space (s : string) : no_leading_space (trimStart s).
Proof.
  induction s as [|c r IH]; simpl; [exact I|].
  destruct (is_space c) eqn:Hc; [exact IH | exact Hc].
Qed.

Lemma trimEnd_no_leading_space (s : string) :
  no_leading_space s -> no_leading_space (trimEnd s).
Proof.
  destruct s as [|c r]; simpl; [auto|]. intros Hc.
  destruct (trimEnd r); [rewrite Hc|]; exact Hc.
Qed.

Lemma trimStart_fix (s : string) : no_leading_space s -> trimStart s = s.
Proof.
  destruct s as [|c r]; simpl; [reflexivity|]. now intros ->.
Qed.

Lemma trim_idem (s : string) : trim (trim s) = trim s.
Proof.
  unfold trim.
  rewrite (trimStart_fix (trimEnd (trimStart s))).
  - apply trimEnd_idem.
  - apply trimEnd_no_leading_space, trimStart_no_leading_space.
Qed.

(** ** The matcher *)

Lemma star_suffix (p : ascii -> bool) (s : string) :
  forall e, Forall (fun y => is_suffix (snd y) s) (star p e s).
Proof.
  induction s as [|c r IH]; intros e; simpl.
  - repeat constructor. apply is_suffix_refl.
  - destruct (p c).
    + apply Forall_app; split.
      * eapply Forall_impl; [|apply IH]. intros y. apply is_suffix_cons.
      * repeat constructor. apply is_suffix_refl.
    + repeat constructor. apply is_suffix_refl.
Qed.

Lemma rmatch_suffix (i : bool) (r : regex) :
  forall x, Forall (fun y => is_suffix (snd y) (snd x)) (rmatch i r x).
Proof.
  induction r as [| |a|r1 IH1 r2 IH2|r1 IH1 r2 IH2|a|a|r1 IH1]; intros x; simpl.
  - repeat constructor. apply is_suffix_refl.
  - destruct (Nat.eqb (fst x) 0); repeat constructor. apply is_suffix_refl.
  - destruct (snd x) as [|c s]; [constructor|].
    destruct (cset_match i a c); repeat constructor.
    apply is_suffix_cons, is_suffix_refl.
  - apply Forall_forall. intros y Hy.
    apply in_flat_map in Hy as [z [Hz Hy]].
    pose proof (IH1 x) as H1. pose proof (IH2 z) as H2.
    rewrite Forall_forall in H1, H2.
    exact (is_suffix_trans _ _ _ (H2 y Hy) (H1 z Hz)).
  - apply Forall_app; auto.
  - apply star_suffix.
  - destruct (snd x) as [|c s]; [constructor|].
    destruct (cset_match i a c); [|constructor].
    eapply Forall_impl; [|apply star_suffix]. intros y. apply is_suffix_cons.
  - apply Forall_app; split; [apply IH1|].
    repeat constructor. apply is_suffix_refl.
Qed.

Lemma search_unfold (re : regexp) (e : nat) (s : string) :
  search re e s =
  match rmatch (ignoreCase re) (pattern re) (e, s) with
  | (_, rest) :: _ => Some (EmptyString, rest)
  | [] =>
      match s with
      | EmptyString => None
      | String c r =>
          match search re (S e) r with
          | Some (pre, rest) => Some (String c pre, rest)
          | None => None
          end
      end
  end.
Proof. destruct s; reflexivity. Qed.

Lemma search_split (re : regexp) (s : string) :
  forall e pre rest,
    search re e s = Some (pre, rest) -> exists mid, s = pre ++ mid ++ rest.
Proof.
  induction s as [|c r IH]; intros e pre rest; rewrite search_unfold.
  - pose proof (rmatch_suffix (ignoreCase re) (pattern re) (e, "")) as Hn.
    destruct (rmatch _ _ (e, "")) as [|[e' rest'] tl]; [discriminate|].
    intros [= <- <-]. inversion Hn as [|? ? [mid Hmid] _]; subst.
    exists mid. exact Hmid.
  - pose proof (rmatch_suffix (ignoreCase re) (pattern re) (e, String c r)) as Hc.
    destruct (rmatch _ _ (e, String c r)) as [|[e' rest'] tl].
    + destruct (search re (S e) r) as [[pre' rest'']|] eqn:Hs; [|discriminate].
      intros [= <- <-]. destruct (IH _ _ _ Hs) as [mid ->].
      now exists mid.
    + intros [= <- <-]. inversion Hc as [|? ? [mid Hmid] _]; subst.
      exists mid. exact Hmid.
Qed.

Lemma lowered_replace (re : regexp) (rep s : string) :
  lowered rep -> lowered s -> lowered (replace re rep s).
Proof.
  unfold replace. intros Hrep Hs.
  destruct (search re 0 s) as [[pre rest]|] eqn:H; [|exact Hs].
  destruct (search_split _ _ _ _ _ H) as [mid ->].
  unfold lowered in *.
  rewrite !string_forall_append in *. tauto.
Qed.

(** ** The leading strip *)

Lemma rmatch_lit (t : string) :
  forall e s,
    rmatch true (lit t) (e, s) =
    match prefix_ci t s with
    | Some r => [(e + String.length t, r)]
    | None => []
    end.
Proof.
  induction t as [|a t IH]; intros e s; simpl.
  - now rewrite Nat.add_0_r.
  - destruct s as [|c s]; [reflexivity|].
    destruct (Ascii.eqb (canonicalize a) (canonicalize c)); [|reflexivity].
    simpl. rewrite IH, app_nil_r, Nat.add_succ_r. reflexivity.
Qed.

Lemma rmatch_alts (ws : list string) :
  forall w x,
    rmatch true (alts w ws) x = flat_map (fun t => rmatch true (lit t) x) (w :: ws).
Proof.
  induction ws as [|w' ws IH]; intros w x.
  - simpl. now rewrite app_nil_r.
  - change (alts w (w' :: ws)) with (Alt (lit w) (alts w' ws)).
    simpl rmatch. rewrite IH. reflexivity.
Qed.

Lemma star_space_head (s : string) :
  forall e, exists e' tl, star (cset_match true CSpace) e s = (e', trimStart s) :: tl.
Proof.
  induction s as [|c r IH]; intros e; simpl.
  - eauto.
  - destruct (is_space c); [|eauto].
    destruct (IH (S e)) as [e' [tl ->]]. simpl. eauto.
Qed.

Lemma leading_match (ts : list string) (e : nat) (s : string) :
  match flat_map (rmatch true (Star CSpace))
          (flat_map (fun t => rmatch true (lit t) (e, s)) ts) with
  | (_, rest) :: _ => Some rest
  | [] => None
  end = option_map trimStart (strip_first ts s).
Proof.
  induction ts as [|t ts IH]; [reflexivity|].
  cbn [flat_map strip_first]. rewrite rmatch_lit.
  destruct (prefix_ci t s) as [r|]; [|exact IH].
  cbn [app flat_map rmatch fst snd].
  destruct (star_space_head r (e + String.length t)) as [e' [tl ->]].
  reflexivity.
Qed.

Lemma search_bol (X : regex) (i : bool) (s : string) :
  forall e, e <> 0 -> search (RegExp (Seq Bol X) i) e s = None.
Proof.
  induction s as [|c r IH]; intros e He; rewrite search_unfold; simpl;
    destruct (Nat.eqb_spec e 0); try contradiction; simpl.
  - reflexivity.
  - now rewrite IH.
Qed.

(** The pattern [/^(w|w1|...)\s*/i] replaced by the empty string is the
    reference leading strip over the tokens [w, w1, ...]. *)
Lemma replace_leading (w : string) (ws : list string) (s : string) :
  replace (RegExp (Seq Bol (Seq (alts w ws) (Star CSpace))) true) "" s =
  stripLeadingToken (w :: ws) s.
Proof.
  unfold replace, stripLeadingToken. rewrite search_unfold.
  cbn [ignoreCase pattern]. 
  change (rmatch true (Seq Bol (Seq (alts w ws) (Star CSpace))) (0, s))
    with (flat_map (rmatch true (Star CSpace)) (rmatch true (alts w ws) (0, s)) ++ [])%list.
  rewrite app_nil_r, rmatch_alts.
  pose proof (leading_match (w :: ws) 0 s) as H.
  destruct (flat_map (rmatch true (Star CSpace)) _) as [|[e' rest] tl].
  - destruct (strip_first (w :: ws) s); [discriminate|].
    destruct s as [|c r]; [reflexivity|].
    now rewrite search_bol.
  - destruct (strip_first (w :: ws) s) as [r|]; [|discriminate].
    injection H as ->. reflexivity.
Qed.

Lemma prefix_ci_append (t rest : string) : prefix_ci t (t ++ rest) = Some rest.
Proof.
  induction t as [|a t IH]; simpl; [reflexivity|].
  now rewrite Ascii.eqb_refl.
Qed.

Lemma prefix_ci_length (t : string) :
  forall s r, prefix_ci t s = Some r ->
              String.length s = String.length t + String.length r.
Proof.
  induction t as [|a t IH]; intros s r; simpl.
  - now intros [= ->].
  - destruct s as [|c s]; [discriminate|].
    destruct (Ascii.eqb _ _); [|discriminate].
    intros H. simpl. now rewrite (IH _ _ H).
Qed.

Lemma strip_first_shorter (ts : list string) (s r : string) :
  Forall (fun t => t <> "") ts ->
  strip_first ts s = Some r -> String.length r < String.length s.
Proof.
  induction 1 as [|t ts Ht _ IH]; simpl; [discriminate|].
  destruct (prefix_ci t s) as [r'|] eqn:Hp; [|exact IH].
  intros [= ->]. apply prefix_ci_length in Hp.
  destruct t; [contradiction|]. simpl in Hp. lia.
Qed.

Lemma strip_first_token (ts : list string) (t rest : string) :
  In t ts -> exists r, strip_first ts (t ++ rest) = Some r.
Proof.
  induction ts as [|t' ts IH]; simpl; [tauto|].
  intros [-> | Hin].
  - rewrite prefix_ci_append. eauto.
  - destruct (prefix_ci t' (t ++ rest)); eauto.
Qed.

(** A string that begins with a token loses it, whatever follows the
    token. *)
Lemma stripLeadingToken_shorter (ts : list string) :
  Forall (fun t => t <> "") ts ->
  Forall (fun t => forall rest,
              String.length (stripLeadingToken ts (t ++ rest))
              < String.length (t ++ rest)) ts.
Proof.
  intros Hne. apply Forall_forall. intros t Hin rest.
  unfold stripLeadingToken.
  destruct (strip_first_token ts t rest Hin) as [r Hr]. rewrite Hr.
  pose proof (strip_first_shorter _ _ _ Hne Hr).
  pose proof (trimStart_length r). lia.
Qed.

(** C8 as stated fails: "Kotamobagu" begins with the letters of the
    token [kota], and the leading strip removes them. *)
Lemma kotamobagu_loses_kota :
  replace cityLeadingRe "" (toLowerCase "Kotamobagu") = "mobagu" /\
  replace cityLeadingRe "" (toLowerCase "Kotamobagu") <> toLowerCase "Kotamobagu" /\
  normalizeCity "Kotamobagu" = "mobagu".
Proof.
  repeat split; try (vm_compute; reflexivity).
  intros H. vm_compute in H. discriminate H.
Qed.

(** C8, as the code has it: the leading strip is anchored at the start of
    the string and nowhere else.  It removes the first listed token whose
    letters the string begins with, in either case, and the white space
    after it, whether or not the token ends at a word boundary: a string
    that begins with a token always comes out shorter, whatever follows
    the token, and "kotamobagu" and "kota mobagu" both become "mobagu". *)
Theorem leading_strip_anchored_at_start_only :
  (forall s : string,
      replace cityLeadingRe "" s = stripLeadingToken cityLeadingTokens s) /\
  (forall s : string,
      replace provinceLeadingRe "" s = stripLeadingToken provinceLeadingTokens s) /\
  Forall (fun t => forall rest : string,
              String.length (replace cityLeadingRe "" (t ++ rest))
              < String.length (t ++ rest)) cityLeadingTokens /\
  Forall (fun t => forall rest : string,
              String.length (replace provinceLeadingRe "" (t ++ rest))
              < String.length (t ++ rest)) provinceLeadingTokens /\
  replace cityLeadingRe "" (toLowerCase "Kotamobagu") = "mobagu" /\
  replace cityLeadingRe "" (toLowerCase "Kota Mobagu") = "mobagu".
Proof.
  assert (Hc : forall s, replace cityLeadingRe "" s
                         = stripLeadingToken cityLeadingTokens s)
    by (intros s; unfold cityLeadingRe, cityLeadingTokens; apply replace_leading).
  assert (Hp : forall s, replace provinceLeadingRe "" s
                         = stripLeadingToken provinceLeadingTokens s)
    by (intros s; unfold provinceLeadingRe, provinceLeadingTokens;
        apply replace_leading).
  split; [exact Hc|]. split; [exact Hp|].
  split; [|split; [|split; vm_compute; reflexivity]].
  - eapply Forall_impl; [|apply stripLeadingToken_shorter].
    + intros t H rest. rewrite Hc. apply H.
    + repeat constructor; discriminate.
  - eapply Forall_impl; [|apply stripLeadingToken_shorter].
    + intros t H rest. rewrite Hp. apply H.
    + repeat constructor; discriminate.
Qed.

(** ** Normalising twice *)

Lemma normalize_settled (leading inner : regexp) (x : string) :
  let normalize := fun s => trim (replace inner " " (replace leading "" (toLowerCase s))) in
  replace leading "" (normalize x) = normalize x ->
  replace inner " " (normalize x) = normalize x ->
  normalize (normalize x) = normalize x.
Proof.
  intros normalize Hl Hi.
  assert (Hlow : lowered (normalize x)).
  { apply lowered_trim, lowered_replace; [split; [reflexivity | exact I]|].
    apply lowered_replace; [exact I | apply lowered_toLowerCase]. }
  unfold normalize at 1.
  rewrite (lowered_fix _ Hlow), Hl, Hi.
  apply trim_idem.
Qed.

(** C2 as stated fails: the normaliser removes one leading token at a
    time, so a second pass goes on where the first stopped. *)
Lemma normalize_twice_differs :
  normalizeProvince "Daerah Khusus Ibukota Jakarta" = "khusus ibukota jakarta" /\
  normalizeProvince (normalizeProvince "Daerah Khusus Ibukota Jakarta")
    = "ibukota jakarta" /\
  normalizeProvince (normalizeProvince "Daerah Khusus Ibukota Jakarta")
    <> normalizeProvince "Daerah Khusus Ibukota Jakarta" /\
  normalizeCity "Kota Kotamobagu" = "kotamobagu" /\
  normalizeCity (normalizeCity "Kota Kotamobagu") = "mobagu" /\
  normalizeCity (normalizeCity "Kota Kotamobagu") <> normalizeCity "Kota Kotamobagu".
Proof.
  repeat split; try (vm_compute; reflexivity);
    intros H; vm_compute in H; discriminate H.
Qed.

(** C2, as the code has it: normalising a second time changes nothing
    when the first result has settled, that is when neither strip rule
    finds anything more to remove in it: both the leading-token pattern
    and the embedded-marker pattern leave it as it is.  This holds for the
    province rules and for the city rules. *)
Theorem normalize_idempotent_once_settled :
  (forall x : string,
      replace provinceLeadingRe "" (normalizeProvince x) = normalizeProvince x ->
      replace provinceInnerRe " " (normalizeProvince x) = normalizeProvince x ->
      normalizeProvince (normalizeProvince x) = normalizeProvince x) /\
  (forall x : string,
      replace cityLeadingRe "" (normalizeCity x) = normalizeCity x ->
      replace cityInnerRe " " (normalizeCity x) = normalizeCity x ->
      normalizeCity (normalizeCity x) = normalizeCity x).
Proof.
  split; intros x.
  - exact (normalize_settled provinceLeadingRe provinceInnerRe x).
  - exact (normalize_settled cityLeadingRe cityInnerRe x).
Qed.

Lemma normalize_idempotent_once_settled_witness :
  normalizeProvince (normalizeProvince "Provinsi Jawa Tengah")
    = normalizeProvince "Provinsi Jawa Tengah" /\
  normalizeCity (normalizeCity "Kabupaten Sleman") = normalizeCity "Kabupaten Sleman".
Proof.
  split.
  - apply (proj1 normalize_idempotent_once_settled "Provinsi Jawa Tengah");
      vm_compute; reflexivity.
  - apply (proj2 normalize_idempotent_once_settled "Kabupaten Sleman");
      vm_compute; reflexivity.
Defined.

(** * Further properties of the resolvers *)

Lemma prefix_refl (s : string) : prefix s s = true.
Proof.
  induction s as [|c r IH]; simpl; [reflexivity|].
  destruct (ascii_dec c c); [exact IH | contradiction].
Qed.

Lemma includes_refl (s : string) : includes s s = true.
Proof. destruct s; cbn [includes]; now rewrite prefix_refl. Qed.

Lemma includes_empty (s : string) : includes s "" = true.
Proof. destruct s; reflexivity. Qed.

Lemma find_undefined (f : string -> bool) (l : list string) :
  find f l = VUndefined <-> Forall (fun x => f x = false) l.
Proof.
  induction l as [|x r IH]; simpl.
  - split; [constructor | reflexivity].
  - destruct (f x) eqn:Hx.
    + split; [discriminate|]. intros H. inversion H; congruence.
    + rewrite IH. split; [now constructor | intros H; now inversion H].
Qed.

Lemma find_ext (f g : string -> bool) (l : list string) :
  (forall x, f x = g x) -> find f l = find g l.
Proof.
  intros H. induction l as [|x r IH]; simpl; [reflexivity|].
  now rewrite H, IH.
Qed.

Lemma find_shadowed (f : string -> bool) (l1 l2 l3 : list string) (a b : string) :
  (f b = true -> f a = true) ->
  find f (l1 ++ a :: l2 ++ b :: l3) = find f (l1 ++ a :: l2 ++ l3).
Proof.
  intros H. induction l1 as [|x r IH]; simpl.
  - destruct (f a) eqn:Ha; [reflexivity|].
    induction l2 as [|y r IH]; simpl.
    + destruct (f b) eqn:Hb; [|reflexivity].
      discriminate (H eq_refl).
    + now rewrite IH.
  - now rewrite IH.
Qed.

Lemma toLowerCase_append (a b : string) :
  toLowerCase (a ++ b) = toLowerCase a ++ toLowerCase b.
Proof. induction a as [|c r IH]; simpl; [reflexivity | now rewrite IH]. Qed.

Lemma toLowerCase_idem (s : string) : toLowerCase (toLowerCase s) = toLowerCase s.
Proof. apply lowered_fix, lowered_toLowerCase. Qed.

Lemma toLowerCase_empty (s : string) : toLowerCase s = "" <-> s = "".
Proof. destruct s; simpl; split; intros H; try reflexivity; discriminate H. Qed.

Lemma is_space_lower_char (c : ascii) : is_space (lower_char c) = is_space c.
Proof.
  destruct c as [[] [] [] [] [] [] [] []]; reflexivity.
Qed.

(** The two entry-side province patterns strip alike: the alternative
    written twice in the first one adds nothing. *)
Lemma provinceName_same (p : string) : provinceNameExact p = provinceNamePartial p.
Proof.
  unfold provinceNameExact, provinceNamePartial,
    provinceEntryExactRe, provinceEntryPartialRe.
  rewrite !replace_leading. unfold stripLeadingToken.
  cbn [strip_first].
  destruct (prefix_ci "provinsi" (toLowerCase p)); [reflexivity|].
  destruct (prefix_ci "prov" (toLowerCase p)); [reflexivity|].
  destruct (prefix_ci "d.i." (toLowerCase p)); reflexivity.
Qed.

Lemma normalizeProvince_empty : normalizeProvince "" = "".
Proof. reflexivity. Qed.

Lemma normalizeCity_empty : normalizeCity "" = "".
Proof. reflexivity. Qed.

Lemma findMatchingCity_steps (s : string) (l : list string) :
  s <> "" -> l <> [] ->
  findMatchingCity (VStr s) (Arr l) =
  Ok (if truthy (find (fun c => cityName c =? normalizeCity s) l)
      then find (fun c => cityName c =? normalizeCity s) l
      else find (fun c => contains_either (cityName c) (normalizeCity s)) l).
Proof.
  intros H Hl. destruct l as [|x l]; [contradiction|].
  unfold findMatchingCity, cityExact, cityPartial, call_find.
  rewrite (truthy_nonempty _ H).
  cbn [negb has_length List.length Nat.eqb call bindR].
  now destruct (truthy (find _ (x :: l))).
Qed.

Lemma findMatchingProvince_steps (provinces : list string) (s : string) :
  s <> "" ->
  findMatchingProvince provinces (VStr s) =
  Ok (if truthy (find (fun p => provinceNameExact p =? normalizeProvince s) provinces)
      then find (fun p => provinceNameExact p =? normalizeProvince s) provinces
      else find (fun p => contains_either (provinceNamePartial p) (normalizeProvince s))
                provinces).
Proof.
  intros H. now rewrite (findMatchingProvince_truthy _ _ H).
Qed.

(** The resolvers see a truthy name through its normal form only. *)
Lemma findMatchingProvince_normal (provinces : list string) (s1 s2 : string) :
  s1 <> "" -> s2 <> "" -> normalizeProvince s1 = normalizeProvince s2 ->
  findMatchingProvince provinces (VStr s1) = findMatchingProvince provinces (VStr s2).
Proof.
  intros H1 H2 H. rewrite !findMatchingProvince_truthy by assumption. now rewrite H.
Qed.

Lemma findMatchingCity_normal (citiesList : array) (s1 s2 : string) :
  s1 <> "" -> s2 <> "" -> normalizeCity s1 = normalizeCity s2 ->
  findMatchingCity (VStr s1) citiesList = findMatchingCity (VStr s2) citiesList.
Proof.
  intros H1 H2 H. unfold findMatchingCity.
  rewrite (truthy_nonempty _ H1), (truthy_nonempty _ H2).
  cbn [call bindR negb]. now rewrite H.
Qed.

Lemma stripped_nonempty (strip : string -> string) (e q : string) :
  strip "" = "" -> q <> "" -> strip e = q -> e <> "".
Proof. intros H0 Hq He ->. congruence. Qed.

Lemma find_exact_hit (strip : string -> string) (q p : string) (l : list string) :
  strip "" = "" -> q <> "" -> In p l -> strip p = q ->
  exists e, find (fun x => strip x =? q) l = VStr e /\ In e l /\ strip e = q /\ e <> "".
Proof.
  intros H0 Hq Hin Hp.
  destruct (find_some (fun x => strip x =? q) l p Hin) as [e He].
  { now apply String.eqb_eq. }
  destruct (find_spec _ _ _ He) as [Hi Hs]. apply String.eqb_eq in Hs.
  exists e. repeat split; auto. exact (stripped_nonempty strip e q H0 Hq Hs).
Qed.

(** X1: an entry whose stripped form equals the normalised query always
    wins over entries that only contain it or are contained in it,
    wherever they stand in the list: when the normalised query is not
    empty and some entry strips to it, the answer is an entry that strips
    to it.  Province and city resolver alike. *)
Theorem exact_match_wins :
  (forall (provinces : list string) (s p : string),
      normalizeProvince s <> "" -> In p provinces ->
      provinceNameExact p = normalizeProvince s ->
      exists e, findMatchingProvince provinces (VStr s) = Ok (VStr e) /\
                In e provinces /\ provinceNameExact e = normalizeProvince s) /\
  (forall (citiesList : list string) (s c : string),
      normalizeCity s <> "" -> In c citiesList ->
      cityName c = normalizeCity s ->
      exists e, findMatchingCity (VStr s) (Arr citiesList) = Ok (VStr e) /\
                In e citiesList /\ cityName e = normalizeCity s).
Proof.
  split.
  - intros provinces s p Hn Hin Hp.
    assert (Hs : s <> "") by (intros ->; now apply Hn).
    destruct (find_exact_hit provinceNameExact _ p provinces eq_refl Hn Hin Hp)
      as [e (He & Hi & Hq & Hne)].
    exists e. rewrite (findMatchingProvince_steps _ _ Hs), He.
    now rewrite (truthy_nonempty _ Hne).
  - intros l s c Hn Hin Hc.
    assert (Hs : s <> "") by (intros ->; now apply Hn).
    assert (Hl : l <> []) by (intros ->; destruct Hin).
    destruct (find_exact_hit cityName _ c l eq_refl Hn Hin Hc)
      as [e (He & Hi & Hq & Hne)].
    exists e. rewrite (findMatchingCity_steps _ _ Hs Hl), He.
    now rewrite (truthy_nonempty _ Hne).
Qed.

Lemma exact_match_wins_witness :
  (exists e, findMatchingProvince ["Jawa"; "Jawa Barat"; "Jawa Tengah"]
               (VStr "Provinsi Jawa Tengah") = Ok (VStr e) /\
             In e ["Jawa"; "Jawa Barat"; "Jawa Tengah"] /\
             provinceNameExact e = normalizeProvince "Provinsi Jawa Tengah") /\
  (exists e, findMatchingCity (VStr "Kota Bandung Barat")
               (Arr ["Kab. Bandung"; "Kab. Bandung Barat"]) = Ok (VStr e) /\
             In e ["Kab. Bandung"; "Kab. Bandung Barat"] /\
             cityName e = normalizeCity "Kota Bandung Barat").
Proof.
  split.
  - apply (proj1 exact_match_wins ["Jawa"; "Jawa Barat"; "Jawa Tengah"]
             "Provinsi Jawa Tengah" "Jawa Tengah").
    + vm_compute. discriminate.
    + simpl. auto.
    + vm_compute. reflexivity.
  - apply (proj2 exact_match_wins ["Kab. Bandung"; "Kab. Bandung Barat"]
             "Kota Bandung Barat" "Kab. Bandung Barat").
    + vm_compute. discriminate.
    + simpl. auto.
    + vm_compute. reflexivity.
Defined.

Lemma not_found_iff (strip1 strip2 : string -> string) (q : string) (l : list string) :
  (forall x, strip1 x = strip2 x) ->
  (if truthy (find (fun x => strip1 x =? q) l)
   then find (fun x => strip1 x =? q) l
   else find (fun x => contains_either (strip2 x) q) l) = VUndefined <->
  Forall (fun x => contains_either (strip2 x) q = false) l.
Proof.
  intros Hsame. split.
  - destruct (truthy (find (fun x => strip1 x =? q) l)) eqn:Ht.
    + intros H. rewrite H in Ht. discriminate Ht.
    + apply find_undefined.
  - intros H.
    assert (He : find (fun x => strip1 x =? q) l = VUndefined).
    { apply find_undefined. eapply Forall_impl; [|exact H].
      intros x Hx. destruct (String.eqb_spec (strip1 x) q) as [Heq|]; [|reflexivity].
      cbv beta in Hx. rewrite <- Hsame, Heq in Hx. unfold contains_either in Hx.
      now rewrite includes_refl in Hx. }
    rewrite He. simpl. now apply find_undefined.
Qed.

(** X2: on a non-empty name the province resolver answers [undefined]
    exactly when no entry's stripped form contains the normalised query
    or is contained in it; the city resolver likewise on a non-empty
    list. *)
Theorem not_found_exactly_without_partial_match :
  (forall (provinces : list string) (s : string),
      s <> "" ->
      (findMatchingProvince provinces (VStr s) = Ok VUndefined <->
       Forall (fun p => contains_either (provinceNamePartial p) (normalizeProvince s)
                        = false) provinces)) /\
  (forall (citiesList : list string) (s : string),
      s <> "" -> citiesList <> [] ->
      (findMatchingCity (VStr s) (Arr citiesList) = Ok VUndefined <->
       Forall (fun c => contains_either (cityName c) (normalizeCity s) = false)
              citiesList)).
Proof.
  split.
  - intros provinces s Hs. rewrite (findMatchingProvince_steps _ _ Hs).
    rewrite <- (not_found_iff provinceNameExact provinceNamePartial _ _ provinceName_same).
    split; [now intros [= ->] | now intros ->].
  - intros l s Hs Hl. rewrite (findMatchingCity_steps _ _ Hs Hl).
    rewrite <- (not_found_iff cityName cityName _ _ (fun _ => eq_refl)).
    split; [now intros [= ->] | now intros ->].
Qed.

Lemma not_found_exactly_without_partial_match_witness :
  (findMatchingProvince ["Aceh"; "Bali"] (VStr "Jawa Tengah") = Ok VUndefined <->
   Forall (fun p => contains_either (provinceNamePartial p)
                      (normalizeProvince "Jawa Tengah") = false) ["Aceh"; "Bali"]) /\
  (findMatchingCity (VStr "Tanjung Priok") (Arr ["Kota Jakarta Utara"]) = Ok VUndefined <->
   Forall (fun c => contains_either (cityName c) (normalizeCity "Tanjung Priok") = false)
          ["Kota Jakarta Utara"]).
Proof.
  split.
  - apply (proj1 not_found_exactly_without_partial_match ["Aceh"; "Bali"] "Jawa Tengah").
    discriminate.
  - apply (proj2 not_found_exactly_without_partial_match ["Kota Jakarta Utara"]
             "Tanjung Priok"); discriminate.
Defined.

(** X3: an entry whose stripped form is also the stripped form of an
    earlier entry is out of reach: taking it out of the list changes the
    answer for no name.  Province and city resolver alike. *)
Theorem shadowed_entry_never_answered :
  (forall (name : value) (l1 l2 l3 : list string) (a b : string),
      provinceNameExact a = provinceNameExact b ->
      findMatchingProvince (l1 ++ a :: l2 ++ b :: l3) name =
      findMatchingProvince (l1 ++ a :: l2 ++ l3) name) /\
  (forall (name : value) (l1 l2 l3 : list string) (a b : string),
      cityName a = cityName b ->
      findMatchingCity name (Arr (l1 ++ a :: l2 ++ b :: l3)) =
      findMatchingCity name (Arr (l1 ++ a :: l2 ++ l3))).
Proof.
  split; intros name l1 l2 l3 a b Hab.
  - destruct (truthy name) eqn:Ht.
    + destruct (truthy_VStr _ Ht) as [s [-> Hs]].
      rewrite !(findMatchingProvince_steps _ _ Hs).
      rewrite !(find_shadowed _ l1 l2 l3 a b); [reflexivity| |].
      * rewrite <- !provinceName_same, Hab. auto.
      * rewrite Hab. auto.
    + now rewrite !(findMatchingProvince_falsy _ _ Ht).
  - destruct (truthy name) eqn:Ht.
    + destruct (truthy_VStr _ Ht) as [s [-> Hs]].
      rewrite !(findMatchingCity_steps _ _ Hs) by (now destruct l1).
      rewrite !(find_shadowed _ l1 l2 l3 a b); [reflexivity| |];
        rewrite Hab; auto.
    + unfold findMatchingCity. now rewrite Ht.
Qed.

Lemma shadowed_entry_never_answered_witness :
  findMatchingProvince (["Aceh"] ++ "Jawa Barat" :: ["Bali"] ++ "Provinsi Jawa Barat" :: [])
                       (VStr "Jawa Barat") =
  findMatchingProvince (["Aceh"] ++ "Jawa Barat" :: ["Bali"] ++ []) (VStr "Jawa Barat") /\
  findMatchingCity (VStr "Kota Bandung")
                   (Arr ([] ++ "Kab. Bandung" :: ["Kab. Garut"] ++ "Kota Bandung" :: [])) =
  findMatchingCity (VStr "Kota Bandung")
                   (Arr ([] ++ "Kab. Bandung" :: ["Kab. Garut"] ++ [])).
Proof.
  split.
  - apply (proj1 shadowed_entry_never_answered (VStr "Jawa Barat")
             ["Aceh"] ["Bali"] [] "Jawa Barat" "Provinsi Jawa Barat").
    vm_compute. reflexivity.
  - apply (proj2 shadowed_entry_never_answered (VStr "Kota Bandung")
             [] ["Kab. Garut"] [] "Kab. Bandung" "Kota Bandung").
    vm_compute. reflexivity.
Defined.

(** X4: the resolvers do not look at the letter case of the name: two
    names with the same lower-case form get the same answer from every
    list. *)
Theorem resolvers_ignore_letter_case (s1 s2 : string) :
  toLowerCase s1 = toLowerCase s2 ->
  (forall provinces : list string,
      findMatchingProvince provinces (VStr s1) = findMatchingProvince provinces (VStr s2)) /\
  (forall citiesList : array,
      findMatchingCity (VStr s1) citiesList = findMatchingCity (VStr s2) citiesList).
Proof.
  intros H.
  destruct (string_dec s1 "") as [E1|N1].
  - assert (E2 : s2 = "") by (apply toLowerCase_empty; now rewrite <- H, E1).
    subst. split; reflexivity.
  - assert (N2 : s2 <> "").
    { intros E2. apply N1, toLowerCase_empty. now rewrite H, E2. }
    split; intros l.
    + apply findMatchingProvince_normal; auto. unfold normalizeProvince. now rewrite H.
    + apply findMatchingCity_normal; auto. unfold normalizeCity. now rewrite H.
Qed.

Lemma resolvers_ignore_letter_case_witness :
  (forall provinces : list string,
      findMatchingProvince provinces (VStr "JAWA TENGAH")
      = findMatchingProvince provinces (VStr "Jawa Tengah")) /\
  (forall citiesList : array,
      findMatchingCity (VStr "JAWA TENGAH") citiesList
      = findMatchingCity (VStr "Jawa Tengah") citiesList).
Proof.
  apply (resolvers_ignore_letter_case "JAWA TENGAH" "Jawa Tengah").
  reflexivity.
Defined.

Lemma find_all_on_empty_query (strip1 strip2 : string -> string) (x : string)
    (l : list string) :
  Forall (fun p => strip1 p <> "") (x :: l) ->
  (if truthy (find (fun p => strip1 p =? "") (x :: l))
   then find (fun p => strip1 p =? "") (x :: l)
   else find (fun p => contains_either (strip2 p) "") (x :: l)) = VStr x.
Proof.
  intros H.
  assert (He : find (fun p => strip1 p =? "") (x :: l) = VUndefined).
  { apply find_undefined. eapply Forall_impl; [|exact H].
    intros p Hp. now apply String.eqb_neq. }
  rewrite He. cbn [truthy find]. unfold contains_either.
  now rewrite includes_empty.
Qed.

(** X5: a name that is not empty but is normalised to the empty string
    (a bare type word such as "Provinsi" or "Kota") is contained in every
    stripped form: when no entry strips to the empty string, the answer
    is the first entry of the list, whatever it is. *)
Theorem bare_type_word_resolves_to_first_entry :
  (forall (s x : string) (l : list string),
      s <> "" -> normalizeProvince s = "" ->
      Forall (fun p => provinceNameExact p <> "") (x :: l) ->
      findMatchingProvince (x :: l) (VStr s) = Ok (VStr x)) /\
  (forall (s x : string) (l : list string),
      s <> "" -> normalizeCity s = "" ->
      Forall (fun c => cityName c <> "") (x :: l) ->
      findMatchingCity (VStr s) (Arr (x :: l)) = Ok (VStr x)).
Proof.
  split; intros s x l Hs Hn Hall.
  - rewrite (findMatchingProvince_steps _ _ Hs), Hn.
    now rewrite (find_all_on_empty_query provinceNameExact provinceNamePartial).
  - rewrite (findMatchingCity_steps _ _ Hs) by discriminate. rewrite Hn.
    now rewrite (find_all_on_empty_query cityName cityName).
Qed.

Lemma bare_type_word_resolves_to_first_entry_witness :
  findMatchingProvince ("Aceh" :: ["Bali"; "Jawa Tengah"]) (VStr "Provinsi") = Ok (VStr "Aceh") /\
  findMatchingCity (VStr "Kota") (Arr ("Kab. Bantul" :: ["Kota Yogyakarta"]))
    = Ok (VStr "Kab. Bantul").
Proof.
  split.
  - apply (proj1 bare_type_word_resolves_to_first_entry "Provinsi" "Aceh"
             ["Bali"; "Jawa Tengah"]).
    + discriminate.
    + vm_compute. reflexivity.
    + repeat constructor; vm_compute; discriminate.
  - apply (proj2 bare_type_word_resolves_to_first_entry "Kota" "Kab. Bantul"
             ["Kota Yogyakarta"]).
    + discriminate.
    + vm_compute. reflexivity.
    + repeat constructor; vm_compute; discriminate.
Defined.

(** ** The type prefix that [reverseGeocode] puts before the city name *)

Lemma replace_cityLeading (s : string) :
  replace cityLeadingRe "" s = stripLeadingToken cityLeadingTokens s.
Proof. unfold cityLeadingRe, cityLeadingTokens. apply replace_leading. Qed.

Lemma strip_first_kota (y : string) :
  strip_first cityLeadingTokens ("kota " ++ y) = Some (" " ++ y).
Proof. reflexivity. Qed.

Lemma strip_first_kab_period (y : string) :
  strip_first cityLeadingTokens ("kab. " ++ y) = Some (". " ++ y).
Proof. reflexivity. Qed.

Lemma no_leading_space_toLowerCase (s : string) :
  no_leading_space s -> no_leading_space (toLowerCase s).
Proof.
  destruct s as [|c r]; simpl; [auto|]. now rewrite is_space_lower_char.
Qed.

(** X6: the prefix "Kota" that [reverseGeocode] adds for the [city]
    field is taken off again by the normaliser and tells the resolver
    nothing: for a city name that does not begin with white space or with
    a type token, the resolver answers the prefixed name as it answers
    the bare name, on every list. *)
Theorem kota_prefix_has_no_effect (x : string) (citiesList : array) :
  x <> "" ->
  no_leading_space x ->
  strip_first cityLeadingTokens (toLowerCase x) = None ->
  findMatchingCity (cityNameForMatching (VStr x) (VStr "Kota")) citiesList =
  findMatchingCity (VStr x) citiesList.
Proof.
  intros Hx Hsp Htok.
  change (cityNameForMatching (VStr x) (VStr "Kota")) with (VStr ("Kota " ++ x)).
  apply findMatchingCity_normal; [discriminate | exact Hx |].
  unfold normalizeCity. rewrite toLowerCase_append.
  change (toLowerCase "Kota ") with "kota ".
  rewrite !replace_cityLeading. unfold stripLeadingToken.
  rewrite strip_first_kota, Htok.
  change (trimStart (" " ++ toLowerCase x)) with (trimStart (toLowerCase x)).
  now rewrite (trimStart_fix _ (no_leading_space_toLowerCase _ Hsp)).
Qed.

Lemma kota_prefix_has_no_effect_witness :
  findMatchingCity (cityNameForMatching (VStr "Bandung") (VStr "Kota"))
                   (Arr ["Kab. Bandung"; "Kota Bandung"]) =
  findMatchingCity (VStr "Bandung") (Arr ["Kab. Bandung"; "Kota Bandung"]).
Proof.
  apply (kota_prefix_has_no_effect "Bandung" (Arr ["Kab. Bandung"; "Kota Bandung"])).
  - discriminate.
  - reflexivity.
  - vm_compute. reflexivity.
Defined.

Lemma replace_keeps_first_unit (Y : regex) (i : bool) (rep : string)
    (c : ascii) (r : string) :
  is_space c = false ->
  exists t, replace (RegExp (Seq (Plus CSpace) Y) i) rep (String c r) = String c t.
Proof.
  intros Hc. unfold replace. rewrite search_unfold.
  cbn [ignoreCase pattern rmatch snd fst cset_match]. rewrite Hc.
  cbn [flat_map].
  destruct (search _ 1 r) as [[pre rest]|]; simpl; eauto.
Qed.

Lemma trimEnd_keeps_first_unit (c : ascii) (r : string) :
  is_space c = false -> exists t, trimEnd (String c r) = String c t.
Proof.
  intros Hc. simpl. destruct (trimEnd r); [rewrite Hc|]; eauto.
Qed.

Lemma normalizeCity_kab_period (x : string) :
  exists t, normalizeCity ("Kab. " ++ x) = String "." t.
Proof.
  unfold normalizeCity. rewrite toLowerCase_append.
  change (toLowerCase "Kab. ") with "kab. ".
  rewrite replace_cityLeading. unfold stripLeadingToken.
  rewrite strip_first_kab_period.
  change (trimStart (". " ++ toLowerCase x)) with (String "." (" " ++ toLowerCase x)).
  destruct (replace_keeps_first_unit
              (Seq (alts "kabupaten" ["kab"; "kota"; "city"; "daerah"; "khusus"])
                   (Star CSpace)) true " " "." (" " ++ toLowerCase x) eq_refl)
    as [t Ht].
  unfold cityInnerRe. rewrite Ht. unfold trim.
  change (trimStart (String "." t)) with (String "." t).
  exact (trimEnd_keeps_first_unit "." t eq_refl).
Qed.

(** X7: the prefix "Kab." that [reverseGeocode] adds for the [county]
    field loses its letters to the normaliser but keeps its period: the
    normalised query begins with a period, so the exact step finds
    nothing in a list none of whose stripped forms begins with a period,
    and every county is resolved by the partial step or not at all. *)
Theorem kab_prefix_defeats_exact_step (x : string) (citiesList : list string) :
  Forall (fun c => prefix "." (cityName c) = false) citiesList ->
  exists q,
    cityNameForMatching (VStr x) (VStr "Kab.") = VStr q /\
    prefix "." (normalizeCity q) = true /\
    cityExact (Arr citiesList) (normalizeCity q) = Ok VUndefined.
Proof.
  intros H. exists ("Kab. " ++ x).
  destruct (normalizeCity_kab_period x) as [t Ht]. rewrite Ht.
  split; [reflexivity|]. split; [now destruct t|].
  unfold cityExact, call_find. f_equal. apply find_undefined.
  eapply Forall_impl; [|exact H]. intros c Hc. cbv beta in Hc.
  destruct (String.eqb_spec (cityName c) (String "." t)) as [E|]; [|reflexivity].
  rewrite E in Hc. now destruct t.
Qed.

Lemma kab_prefix_defeats_exact_step_witness :
  exists q,
    cityNameForMatching (VStr "Bandung Barat") (VStr "Kab.") = VStr q /\
    prefix "." (normalizeCity q) = true /\
    cityExact (Arr ["Kab. Bandung"; "Kab. Bandung Barat"; "Kota Bandung"])
              (normalizeCity q) = Ok VUndefined.
Proof.
  apply (kab_prefix_defeats_exact_step "Bandung Barat"
           ["Kab. Bandung"; "Kab. Bandung Barat"; "Kota Bandung"]).
  repeat constructor.
Defined.

(** * Properties of the location functions *)

Lemma findMatchingProvince_outcome (provinces : list string) (c : value) :
  exists v, findMatchingProvince provinces c = Ok v /\
            (truthy v = true -> exists p, v = VStr p /\ p <> "" /\ In p provinces).
Proof.
  pose proof (findMatchingProvince_member provinces c) as H.
  destruct (findMatchingProvince provinces c) as [v|e]; [|destruct H].
  exists v. split; [reflexivity|]. intros Ht.
  destruct (truthy_VStr _ Ht) as [p [-> Hp]]. eauto.
Qed.

Lemma provinceLoop_outcome (provinces : list string) (candidates : list value) :
  forall foundProvince,
    truthy foundProvince = false ->
    exists v, provinceLoop provinces candidates foundProvince = Ok v /\
              (truthy v = true -> exists p, v = VStr p /\ p <> "" /\ In p provinces).
Proof.
  induction candidates as [|c rest IH]; intros fp Hfp; simpl.
  - exists fp. split; [reflexivity|]. congruence.
  - destruct (findMatchingProvince_outcome provinces c) as [v [-> Hv]]. simpl.
    destruct (truthy v) eqn:Ht; [eauto | now apply IH].
Qed.

Lemma setLocation_outcome (kabkota : string -> response) (province cityName : value)
    (st : component) :
  exists city',
    setLocation kabkota province cityName st =
      (App province city' false (locationError st), Ok tt) /\
    (city' = selectedCity st \/
     exists c, city' = VStr c /\ c <> "" /\ In c (fetchCities kabkota province)).
Proof.
  destruct (findMatchingCity_total cityName (Arr (fetchCities kabkota province)))
    as [matched Hm].
  pose proof (findMatchingCity_member cityName (fetchCities kabkota province)) as Hin.
  rewrite Hm in Hin.
  rewrite (setLocation_unfold _ _ _ _ _ Hm). cbv zeta.
  eexists. split; [reflexivity|].
  destruct (truthy matched) eqn:Ht.
  - rewrite Ht. right. destruct (truthy_VStr _ Ht) as [c [-> Hc]]. eauto.
  - destruct (truthy (first (fetchCities kabkota province))) eqn:Hf; [|now left].
    right. destruct (truthy_VStr _ Hf) as [c [Hc Hne]].
    exists c. repeat split; auto.
    destruct (fetchCities kabkota province) as [|x l]; [discriminate Hc|].
    injection Hc as ->. now left.
Qed.

Lemma reverseGeocode_address (provinces : list string) (kabkota : string -> response)
    (address : Address.t) (st : component) (foundProvince : value) :
  provinceLoop provinces (provinceCandidates address) VNull = Ok foundProvince ->
  reverseGeocode provinces kabkota (GeocodeData (Some address)) st =
  if truthy foundProvince then
    if truthy (fst (selectCity address)) then
      setLocation kabkota foundProvince
        (cityNameForMatching (fst (selectCity address)) (snd (selectCity address))) st
    else (App (selectedProvince st) (selectedCity st) false (locationError st), Ok tt)
  else (App (selectedProvince st) (selectedCity st) false
            (VStr "Provinsi tidak ditemukan dalam database"), Ok tt).
Proof.
  intros H. unfold reverseGeocode, try_catch, bind, lift. rewrite H.
  destruct (truthy foundProvince); [|reflexivity]. cbn [negb].
  destruct (selectCity address) as [rawCityName cityType]. cbn [fst snd].
  destruct (truthy rawCityName); [|reflexivity]. cbn [negb].
  destruct (setLocation_outcome kabkota foundProvince
              (cityNameForMatching rawCityName cityType) st) as [city' [-> _]].
  reflexivity.
Qed.

(** What [reverseGeocode] leaves behind, case by case. *)
Lemma reverseGeocode_outcome (provinces : list string) (kabkota : string -> response)
    (nominatim : geocode) (st : component) :
  exists st',
    reverseGeocode provinces kabkota nominatim st = (st', Ok tt) /\
    locating st' = false /\
    ((same_selection st st' /\
      (locationError st' = locationError st \/
       locationError st' = VStr "Provinsi tidak ditemukan dalam database")) \/
     (exists p,
         selectedProvince st' = VStr p /\ p <> "" /\ In p provinces /\
         locationError st' = locationError st /\
         (selectedCity st' = selectedCity st \/
          exists c, selectedCity st' = VStr c /\ c <> "" /\
                    In c (fetchCities kabkota (VStr p))))).
Proof.
  destruct nominatim as [|[address|]].
  - eexists. split; [reflexivity|]. split; [reflexivity|].
    left. split; [split; reflexivity | now left].
  - destruct (provinceLoop_outcome provinces (provinceCandidates address) VNull eq_refl)
      as [fp [Hloop Hfp]].
    rewrite (reverseGeocode_address _ _ _ _ _ Hloop).
    destruct (truthy fp) eqn:Ht.
    + destruct (Hfp eq_refl) as [p (-> & Hp & Hin)].
      destruct (truthy (fst (selectCity address))).
      * destruct (setLocation_outcome kabkota (VStr p)
                    (cityNameForMatching (fst (selectCity address))
                                         (snd (selectCity address))) st)
          as [city' [-> Hcity]].
        eexists. split; [reflexivity|]. split; [reflexivity|].
        right. exists p. cbn [selectedProvince selectedCity locationError]. auto.
      * eexists. split; [reflexivity|]. split; [reflexivity|].
        left. split; [split; reflexivity | now left].
    + eexists. split; [reflexivity|]. split; [reflexivity|].
      left. split; [split; reflexivity | now right].
  - eexists. split; [reflexivity|]. split; [reflexivity|].
    left. split; [split; reflexivity | now left].
Qed.

(** X8: [reverseGeocode] always ends without an exception and with the
    locating flag cleared, and it changes the selection only to names of
    the lists: afterwards the province and the city are as before, or the
    province is a non-empty entry of the province list and the city is as
    before or a non-empty entry of the city list fetched for that
    province. *)
Theorem reverseGeocode_selects_from_lists (provinces : list string)
    (kabkota : string -> response) (nominatim : geocode) (st : component) :
  exists st',
    reverseGeocode provinces kabkota nominatim st = (st', Ok tt) /\
    locating st' = false /\
    (same_selection st st' \/
     exists p,
       selectedProvince st' = VStr p /\ truthy (VStr p) = true /\ In p provinces /\
       (selectedCity st' = selectedCity st \/
        exists c, selectedCity st' = VStr c /\ truthy (VStr c) = true /\
                  In c (fetchCities kabkota (VStr p)))).
Proof.
  destruct (reverseGeocode_outcome provinces kabkota nominatim st)
    as [st' (H & Hl & [[Hs _] | [p (Hp & Hne & Hin & _ & Hc)]])];
    exists st'; (split; [exact H|]); (split; [exact Hl|]).
  - now left.
  - right. exists p. repeat split; auto using truthy_nonempty.
    destruct Hc as [Hc | [c (Hc & Hcne & Hcin)]]; [now left|].
    right. exists c. auto using truthy_nonempty.
Qed.

Lemma findMatchingProvince_no_list (c : value) :
  exists v, findMatchingProvince [] c = Ok v /\ truthy v = false.
Proof.
  unfold findMatchingProvince. destruct (truthy c) eqn:Ht; simpl; [|eauto].
  destruct (truthy_VStr _ Ht) as [s [-> _]]. simpl. eauto.
Qed.

Lemma provinceCandidates_none (address : Address.t) :
  truthy (Address.state address) = false ->
  truthy (Address.state_district address) = false ->
  truthy (Address.region address) = false ->
  truthy (Address.province address) = false ->
  truthy (Address.county address) = false ->
  provinceCandidates address = [].
Proof.
  intros H1 H2 H3 H4 H5. unfold provinceCandidates. cbn [filter].
  now rewrite H1, H2, H3, H4, H5.
Qed.

(** X9: when no province candidate resolves, [reverseGeocode] shows the
    message "Provinsi tidak ditemukan dalam database", clears the locating
    flag and leaves the selection as it was, without fetching a city
    list.  That is so in particular when none of the five province fields
    of the address is populated, and for every address when the province
    list is empty. *)
Theorem province_not_found (provinces : list string) (kabkota : string -> response)
    (address : Address.t) (st : component) :
  Forall (fun c => exists v, findMatchingProvince provinces c = Ok v /\ truthy v = false)
         (provinceCandidates address) \/
  provinceCandidates address = [] \/
  provinces = [] ->
  reverseGeocode provinces kabkota (GeocodeData (Some address)) st =
  (App (selectedProvince st) (selectedCity st) false
       (VStr "Provinsi tidak ditemukan dalam database"), Ok tt).
Proof.
  intros H.
  assert (Hall : Forall (fun c => exists v, findMatchingProvince provinces c = Ok v
                                            /\ truthy v = false)
                        (provinceCandidates address)).
  { destruct H as [H | [H | H]]; [exact H | rewrite H; constructor |].
    subst. apply Forall_forall. intros c _. apply findMatchingProvince_no_list. }
  destruct (provinceLoop_none _ _ Hall VNull eq_refl) as [v [Hloop Hv]].
  rewrite (reverseGeocode_address _ _ _ _ _ Hloop). now rewrite Hv.
Qed.

Lemma province_not_found_witness :
  reverseGeocode ["Aceh"; "Bali"] (fun _ => Json (Some ["Kab. Badung"]))
    (GeocodeData (Some (Address.Make VUndefined VUndefined VUndefined VUndefined
                                     VUndefined (VStr "Denpasar") VUndefined VUndefined)))
    (App (VStr "Aceh") (VStr "Kota Banda Aceh") true VNull) =
  (App (VStr "Aceh") (VStr "Kota Banda Aceh") false
       (VStr "Provinsi tidak ditemukan dalam database"), Ok tt).
Proof.
  apply (province_not_found ["Aceh"; "Bali"] (fun _ => Json (Some ["Kab. Badung"]))
           (Address.Make VUndefined VUndefined VUndefined VUndefined
                         VUndefined (VStr "Denpasar") VUndefined VUndefined)).
  right. left. reflexivity.
Defined.

Lemma detectLocation_start (provinces : list string) (kabkota : string -> response)
    (platform : geolocation) (st : component) :
  detectLocation provinces kabkota platform st =
  match platform with
  | Unsupported =>
      (App (selectedProvince st) (selectedCity st) false
           (VStr "Geolocation tidak didukung browser"), Ok tt)
  | PositionError =>
      (App (selectedProvince st) (selectedCity st) false
           (VStr "Lokasi tidak terdeteksi, menggunakan Jakarta"), Ok tt)
  | Position nominatim =>
      reverseGeocode provinces kabkota nominatim
        (App (selectedProvince st) (selectedCity st) true VNull)
  | Pending => (App (selectedProvince st) (selectedCity st) true VNull, Ok tt)
  end.
Proof. destruct platform; reflexivity. Qed.

(** X10: three failures of a detection are silent.  When the
    reverse-geocoding request fails, when its answer has no address, and
    when the province resolves but none of [county], [city], [town] and
    [municipality] is populated, [detectLocation] leaves the selection as
    it was and ends with the locating flag cleared and with no error
    message at all. *)
Theorem detection_fails_silently (provinces : list string)
    (kabkota : string -> response) (nominatim : geocode) (st : component) :
  nominatim = GeocodeError \/
  nominatim = GeocodeData None \/
  (exists address,
      nominatim = GeocodeData (Some address) /\
      truthy (Address.county address) = false /\
      truthy (Address.city address) = false /\
      truthy (Address.town address) = false /\
      truthy (Address.municipality address) = false /\
      exists v, provinceLoop provinces (provinceCandidates address) VNull = Ok v /\
                truthy v = true) ->
  detectLocation provinces kabkota (Position nominatim) st =
  (App (selectedProvince st) (selectedCity st) false VNull, Ok tt).
Proof.
  rewrite detectLocation_start.
  intros [-> | [-> | [address (-> & H1 & H2 & H3 & H4 & v & Hloop & Hv)]]];
    try reflexivity.
  rewrite (reverseGeocode_address _ _ _ _ _ Hloop), Hv.
  unfold selectCity. now rewrite H1, H2, H3, H4.
Qed.

Lemma detection_fails_silently_witness :
  detectLocation ["Aceh"; "Bali"] (fun _ => Json (Some ["Kab. Badung"; "Kota Denpasar"]))
    (Position (GeocodeData (Some (Address.Make (VStr "Bali") VUndefined VUndefined
                                    VUndefined VUndefined VUndefined VUndefined
                                    VUndefined))))
    (App VNull VNull false (VStr "Provinsi tidak ditemukan dalam database")) =
  (App VNull VNull false VNull, Ok tt).
Proof.
  apply (detection_fails_silently ["Aceh"; "Bali"]
           (fun _ => Json (Some ["Kab. Badung"; "Kota Denpasar"]))
           (GeocodeData (Some (Address.Make (VStr "Bali") VUndefined VUndefined
                                 VUndefined VUndefined VUndefined VUndefined
                                 VUndefined)))).
  right. right. eexists. split; [reflexivity|].
  repeat (split; [reflexivity|]).
  exists (VStr "Bali"). split; vm_compute; reflexivity.
Defined.


(** X12: an error message and a new selection never come together:
    whenever [detectLocation] ends with a message, the selected province
    and city are those it started from.  No default location is selected
    on a failure, also not Jakarta, which the message of a position error
    names. *)
Theorem message_means_selection_kept (provinces : list string)
    (kabkota : string -> response) (platform : geolocation) (st : component) :
  truthy (locationError (fst (detectLocation provinces kabkota platform st))) = true ->
  same_selection st (fst (detectLocation provinces kabkota platform st)).
Proof.
  rewrite detectLocation_start.
  destruct platform as [| |nominatim|];
    [split; reflexivity | split; reflexivity | | discriminate].
  destruct (reverseGeocode_outcome provinces kabkota nominatim
              (App (selectedProvince st) (selectedCity st) true VNull))
    as [st' (H & _ & [[Hs _] | [p (_ & _ & _ & He & _)]])];
    rewrite H; cbn [fst].
  - intros _. exact Hs.
  - rewrite He. discriminate.
Qed.

Lemma message_means_selection_kept_witness :
  same_selection (App (VStr "Bali") (VStr "Kota Denpasar") false VNull)
    (fst (detectLocation ["Aceh"; "Bali"] (fun _ => NetworkError) PositionError
            (App (VStr "Bali") (VStr "Kota Denpasar") false VNull))).
Proof.
  apply (message_means_selection_kept ["Aceh"; "Bali"] (fun _ => NetworkError)
           PositionError (App (VStr "Bali") (VStr "Kota Denpasar") false VNull)).
  reflexivity.
Defined.

(** * The theme *)

(** X13: the theme choice survives a reload.  After [toggleDarkMode], a
    component that mounts on the stored item comes up with the state
    variable and the [data-theme] attribute as the toggle left them,
    whatever the system preference and the attribute of the fresh page;
    and toggling twice gives back the mode one started from. *)
Theorem theme_survives_reload (t : theme) (prefersDark : bool) (attribute : value) :
  mountTheme prefersDark attribute (storedTheme (toggleDarkMode t)) = toggleDarkMode t /\
  darkMode (toggleDarkMode (toggleDarkMode t)) = darkMode t.
Proof.
  destruct t as [[] a s]; split; reflexivity.
Qed.
